(** * BetterBusBuffers, Step 1 (BBB_Polygons_Step1.py)

    A shallow embedding of [runTool]: the set-up of the run, the creation of
    the stops and of their service areas, and the post-processing that
    flattens the service areas, stacks one point per flattened polygon on
    the original service areas, stores the (polygon, stop_id) pairs in the
    SQL table StackedPoints, deletes the polygons that are of no use and
    fills in the PolyID field.

    The geoprocessing tools of arcpy and the helpers of BBB_SharedFunctions
    are not part of the file under study.  The geometry they compute is kept
    abstract (a [Geoprocessor]); what they do to tables is written out from
    their documented behaviour. *)

From Stdlib Require Import ZArith Floats.PrimFloat Ascii String.
From stdpp Require Import gmap strings list.

Open Scope string_scope.
Open Scope Z_scope.
Open Scope list_scope.

(** ** Python values and strings *)

Module Py.

(** [not v] for a value that is [None] or a [str]. *)
Definition is_falsy (v : option string) : bool :=
  match v with
  | None => true
  | Some s => bool_decide (s = "")
  end.

Definition lower_ascii (c : ascii) : ascii :=
  let n := nat_of_ascii c in
  if (65 <=? n)%nat && (n <=? 90)%nat then ascii_of_nat (n + 32) else c.

Fixpoint lower (s : string) : string :=
  match s with
  | EmptyString => EmptyString
  | String c s' => String (lower_ascii c) (lower s')
  end.

Definition endswith (s suffix : string) : bool :=
  let n := String.length s in
  let m := String.length suffix in
  if (m <=? n)%nat then String.eqb (substring (n - m) m s) suffix else false.

(** Exceptions.  [BBB_SharedFunctions.CustomError] is the only class the
    source names; every other exception is kept by the name of its class. *)
Inductive exn :=
| CustomError (msg : string)
| Exception (class_name : string).

Definition is_CustomError (e : exn) : bool :=
  match e with
  | CustomError _ => true
  | Exception _ => false
  end.

End Py.

(** ** The SQLite file *)

Module Sql.

Inductive value :=
| Null
| Integer (z : Z)
| Text (s : string).

Record table := { tbl_schema : string; tbl_rows : list (list value) }.

(** A database file is the collection of its tables. *)
Abbreviation database := (gmap string table).

Definition drop_table_if_exists (name : string) (db : database) : database :=
  delete name db.

(** CREATE TABLE fails when the table is there already. *)
Definition create_table (name schema : string) (db : database) : option database :=
  match db !! name with
  | Some _ => None
  | None => Some (<[name := {| tbl_schema := schema; tbl_rows := [] |}]> db)
  end.

(** INSERT INTO name VALUES (?, ?), once for every item. *)
Definition insert_many (name : string) (items : list (list value)) (db : database)
  : option database :=
  match db !! name with
  | Some t =>
      Some (<[name := {| tbl_schema := tbl_schema t; tbl_rows := tbl_rows t ++ items |}]> db)
  | None => None
  end.

Definition rows_of (name : string) (db : database) : list (list value) :=
  match db !! name with
  | Some t => tbl_rows t
  | None => []
  end.

End Sql.

(** ** Feature classes and the geoprocessing tools *)

Section Tools.

Context {Geometry Point SpatialReference : Type}.

(** A service area polygon, as [MakeServiceAreasAroundStops] returns them. *)
Record BufferPolygon := { stop_id : string; sa_Shape : Geometry }.

Inductive FieldValue :=
| VLong (z : Z)
| VDouble (x : float)
| VText (s : string).

(** A row of a polygon feature class. *)
Record Feature := {
  OID : Z;
  Shape : Geometry;
  Shape_Area : float;
  attrs : gmap string FieldValue
}.

Record FeatureClass := {
  OIDFieldName : string;
  fields : list (string * string);
  rows : list Feature
}.

(** A row of Step1_FlattenedPoints. *)
Record PointFeature := { pt_Shape : Point; ORIG_FID : Z }.

(** What the geoprocessor computes on geometry; the tools below only move
    these results between tables. *)
Record Geoprocessor := {
  gp_area : Geometry -> float;
  gp_inside : Geometry -> Point;
  gp_contains : Geometry -> Point -> bool;
  gp_flatten : option SpatialReference -> string -> list BufferPolygon -> list Geometry
}.

Variable gp : Geoprocessor.

(** Object ids of a new geodatabase feature class: 1, 2, 3, ... *)
Fixpoint new_rows (next : Z) (gs : list Geometry) : list Feature :=
  match gs with
  | [] => []
  | g :: gs' =>
      {| OID := next; Shape := g; Shape_Area := gp_area gp g; attrs := ∅ |}
        :: new_rows (next + 1) gs'
  end.

(** FeatureToPolygon(polygons, FlatPolys, clusTol, "", dummypoints), under
    the output coordinate system of the environment.  The label features
    are empty, so the output carries no attribute.  Step1_FlatPolys is a
    feature class of a file geodatabase: its object id field is OBJECTID. *)
Definition FeatureToPolygon (outputCoordinateSystem : option SpatialReference)
    (in_features : list BufferPolygon) (cluster_tolerance : string) : FeatureClass :=
  {| OIDFieldName := "OBJECTID";
     fields := [];
     rows := new_rows 1 (gp_flatten gp outputCoordinateSystem cluster_tolerance in_features) |}.

Definition AddField (fc : FeatureClass) (name type : string) : FeatureClass :=
  {| OIDFieldName := OIDFieldName fc;
     fields := fields fc ++ [(name, type)];
     rows := rows fc |}.

(** FeatureToPoint(FlatPolys, FlattenedPoints, "INSIDE"): one point per
    polygon, with the polygon's object id in ORIG_FID. *)
Definition FeatureToPoint (fc : FeatureClass) : list PointFeature :=
  map (fun f => {| pt_Shape := gp_inside gp (Shape f); ORIG_FID := OID f |}) (rows fc).

(** Identity(FlattenedPoints, polygons, StackedPoints), read back with
    SearchCursor(StackedPoints, ["ORIG_FID", "stop_id"]): a point comes out
    once for every identity polygon it falls in, with that polygon's
    stop_id; a point that falls in none comes out once, without stop_id. *)
Definition Identity (in_features : list PointFeature)
    (identity_features : list BufferPolygon) : list (Z * option string) :=
  flat_map
    (fun p =>
       match filter (fun b => gp_contains gp (sa_Shape b) (pt_Shape p) = true)
               identity_features with
       | [] => [(ORIG_FID p, None)]
       | covering => map (fun b => (ORIG_FID p, Some (stop_id b))) covering
       end)
    in_features.

(** The value of a field in a row, by field name. *)
Definition field_value (fc : FeatureClass) (f : Feature) (name : string)
  : option FieldValue :=
  if bool_decide (name = OIDFieldName fc) then Some (VLong (OID f))
  else if bool_decide (name = "Shape_Area") then Some (VDouble (Shape_Area f))
  else attrs f !! name.

(** Where clauses, as far as the source builds them. *)
Inductive SqlExpr :=
| FieldEqZero (field : string)
| FieldIn (field : string) (values : list Z)
| Or (a b : SqlExpr).

Definition value_is_zero (v : FieldValue) : bool :=
  match v with
  | VLong z => bool_decide (z = 0)
  | VDouble x => PrimFloat.eqb x 0%float
  | VText _ => false
  end.

Definition value_in (v : FieldValue) (values : list Z) : bool :=
  match v with
  | VLong z => bool_decide (z ∈ values)
  | _ => false
  end.

Fixpoint selects (fc : FeatureClass) (e : SqlExpr) (f : Feature) : bool :=
  match e with
  | FieldEqZero name =>
      match field_value fc f name with
      | Some v => value_is_zero v
      | None => false
      end
  | FieldIn name values =>
      match field_value fc f name with
      | Some v => value_in v values
      | None => false
      end
  | Or a b => selects fc a f || selects fc b f
  end.

(** MakeFeatureLayer(FlatPolys, "FlatPolysLayer", WhereClause) followed by
    DeleteFeatures("FlatPolysLayer"): the selected rows go, the others keep
    their object ids. *)
Definition DeleteFeatures (fc : FeatureClass) (where_clause : SqlExpr) : FeatureClass :=
  {| OIDFieldName := OIDFieldName fc;
     fields := fields fc;
     rows := filter (fun f => selects fc where_clause f = false) (rows fc) |}.

(** CalculateField(FlatPolys, field, "!source!", "PYTHON"). *)
Definition calculate_row (fc : FeatureClass) (field source : string) (f : Feature)
  : Feature :=
  match field_value fc f source with
  | Some v =>
      {| OID := OID f; Shape := Shape f; Shape_Area := Shape_Area f;
         attrs := <[field := v]> (attrs f) |}
  | None => f
  end.

Definition CalculateField (fc : FeatureClass) (field source : string) : FeatureClass :=
  {| OIDFieldName := OIDFieldName fc;
     fields := fields fc;
     rows := map (calculate_row fc field source) (rows fc) |}.

End Tools.

Arguments BufferPolygon : clear implicits.
Arguments Feature : clear implicits.
Arguments FeatureClass : clear implicits.
Arguments PointFeature : clear implicits.
Arguments Geoprocessor : clear implicits.

(** ** Reading the result *)

Section Reading.

Context {Geometry : Type}.

(** The cell_id of a flattened polygon: its PolyID field. *)
Definition PolyID (f : Feature Geometry) : option Z :=
  match attrs f !! "PolyID" with
  | Some (VLong z) => Some z
  | _ => None
  end.

(** Modelled from the spec: [links_for_cell] of the AttributionStore, whose
    code is not in this file ("links_for_cell(cell_id) -> set of stop_id --
    lookup"); here, the stop_id column of the rows of StackedPoints whose
    Polygon_FID is the cell. *)
Definition links_for_cell (db : Sql.database) (cell_id : Z) : gset string :=
  list_to_set
    (omap
       (fun row =>
          match row with
          | [Sql.Integer fid; Sql.Text s] =>
              if bool_decide (fid = cell_id) then Some s else None
          | _ => None
          end)
       (Sql.rows_of "StackedPoints" db)).

End Reading.

(** ** The run *)

Inductive Severity := Info | Error.

(** The calls [runTool] makes into arcpy, BBB_SharedFunctions, shutil and
    sqlite3, one constructor per place in the source. *)
Inductive CallSite :=
| cs_CheckArcVersion
| cs_CheckArcInfoLicense
| cs_CheckOutNALicense
| cs_CheckWorkspace
| cs_CreateFileGDB
| cs_copyfile
| cs_connect
| cs_CleanUpImpedance
| cs_CleanUpTrimSettings
| cs_MakeStopsFeatureClass
| cs_MakeServiceAreasAroundStops
| cs_CreateFeatureclass
| cs_FeatureToPolygon
| cs_Delete_dummypoints
| cs_AddField (name : string)
| cs_FeatureToPoint
| cs_Identity
| cs_Delete_FlattenedPoints
| cs_execute_drop
| cs_execute_create
| cs_SearchCursor
| cs_executemany
| cs_commit
| cs_Delete_StackedPoints
| cs_Describe
| cs_MakeFeatureLayer
| cs_DeleteFeatures
| cs_CalculateField
| cs_SetParameterAsText (index : nat).

Inductive Stage := Setup | Stops | ServiceAreas | PostProcessing.

Definition stage_error (st : Stage) : string :=
  match st with
  | Setup => "Error setting up run."
  | Stops => "Error creating a feature class of GTFS stops."
  | ServiceAreas => "Error creating service areas around stops."
  | PostProcessing => "Error post-processing polygons"
  end.

Definition failed : string := "Failed to create BetterBusBuffers polygons.".

(** The try block a call is made in (lines 49-80, 84-90, 94-102 and
    106-215); SetParameterAsText is called after the four of them. *)
Definition stage_of (cs : CallSite) : option Stage :=
  match cs with
  | cs_CheckArcVersion | cs_CheckArcInfoLicense | cs_CheckOutNALicense | cs_CheckWorkspace
  | cs_CreateFileGDB | cs_copyfile | cs_connect | cs_CleanUpImpedance
  | cs_CleanUpTrimSettings => Some Setup
  | cs_MakeStopsFeatureClass => Some Stops
  | cs_MakeServiceAreasAroundStops => Some ServiceAreas
  | cs_CreateFeatureclass | cs_FeatureToPolygon | cs_Delete_dummypoints | cs_AddField _
  | cs_FeatureToPoint | cs_Identity | cs_Delete_FlattenedPoints | cs_execute_drop
  | cs_execute_create | cs_SearchCursor | cs_executemany | cs_commit
  | cs_Delete_StackedPoints | cs_Describe | cs_MakeFeatureLayer | cs_DeleteFeatures
  | cs_CalculateField => Some PostProcessing
  | cs_SetParameterAsText _ => None
  end.

(** What the handler of a try block adds to the messages. *)
Definition stage_report (st : option Stage) : list (Severity * string) :=
  match st with
  | Some st => [(Error, stage_error st)]
  | None => []
  end.

(** How a computation ends: with a value, or with an exception. *)
Inductive Outcome (A : Type) :=
| Ret (a : A)
| Raise (e : Py.exn).
Arguments Ret {A} a.
Arguments Raise {A} e.

Section Run.

Context {Geometry Point SpatialReference Layer : Type}.

(** Everything [runTool] relies on and does not define: whether a call
    raises, [os.path.join], and the helpers and the constant of
    BBB_SharedFunctions. *)
Record Collaborators := {
  fault : CallSite -> option Py.exn;
  os_path_join : string -> string -> string;
  WorldCylindrical : SpatialReference;
  CleanUpImpedance : string -> string;
  CleanUpTrimSettings : string -> string * string;
  MakeStopsFeatureClass : string -> Sql.database -> Layer * list string;
  MakeServiceAreasAroundStops :
    Layer -> string -> string -> string -> string -> string -> string ->
    list (BufferPolygon Geometry)
}.

(** What the run can change: the SQLite files (by path), the feature classes
    of the output geodatabase (by path), the file geodatabases there are (by
    path), the geoprocessing environment, the messages, the output
    parameters, and the record of the calls made.  The geoprocessing tools
    write feature classes, never SQLite files; a deleted row of a
    geodatabase feature class leaves the object ids of the others as they
    are. *)
Record World := {
  files : gmap string Sql.database;
  datasets : gmap string (FeatureClass Geometry);
  geodatabases : gset string;
  overwriteOutput : bool;
  outputCoordinateSystem : option SpatialReference;
  messages : list (Severity * string);
  parameters : gmap nat string;
  calls : list CallSite
}.

Definition set_files (fs : gmap string Sql.database) (w : World) : World :=
  {| files := fs; datasets := datasets w; geodatabases := geodatabases w;
     overwriteOutput := overwriteOutput w;
     outputCoordinateSystem := outputCoordinateSystem w; messages := messages w;
     parameters := parameters w; calls := calls w |}.

Definition set_datasets (ds : gmap string (FeatureClass Geometry)) (w : World) : World :=
  {| files := files w; datasets := ds; geodatabases := geodatabases w;
     overwriteOutput := overwriteOutput w;
     outputCoordinateSystem := outputCoordinateSystem w; messages := messages w;
     parameters := parameters w; calls := calls w |}.

Definition set_geodatabases (gdbs : gset string) (w : World) : World :=
  {| files := files w; datasets := datasets w; geodatabases := gdbs;
     overwriteOutput := overwriteOutput w;
     outputCoordinateSystem := outputCoordinateSystem w; messages := messages w;
     parameters := parameters w; calls := calls w |}.

Definition set_overwriteOutput (b : bool) (w : World) : World :=
  {| files := files w; datasets := datasets w; geodatabases := geodatabases w;
     overwriteOutput := b;
     outputCoordinateSystem := outputCoordinateSystem w; messages := messages w;
     parameters := parameters w; calls := calls w |}.

Definition set_outputCoordinateSystem (sr : option SpatialReference) (w : World) : World :=
  {| files := files w; datasets := datasets w; geodatabases := geodatabases w;
     overwriteOutput := overwriteOutput w;
     outputCoordinateSystem := sr; messages := messages w;
     parameters := parameters w; calls := calls w |}.

Definition set_messages (ms : list (Severity * string)) (w : World) : World :=
  {| files := files w; datasets := datasets w; geodatabases := geodatabases w;
     overwriteOutput := overwriteOutput w;
     outputCoordinateSystem := outputCoordinateSystem w; messages := ms;
     parameters := parameters w; calls := calls w |}.

Definition set_parameters (ps : gmap nat string) (w : World) : World :=
  {| files := files w; datasets := datasets w; geodatabases := geodatabases w;
     overwriteOutput := overwriteOutput w;
     outputCoordinateSystem := outputCoordinateSystem w; messages := messages w;
     parameters := ps; calls := calls w |}.

Definition set_calls (cs : list CallSite) (w : World) : World :=
  {| files := files w; datasets := datasets w; geodatabases := geodatabases w;
     overwriteOutput := overwriteOutput w;
     outputCoordinateSystem := outputCoordinateSystem w; messages := messages w;
     parameters := parameters w; calls := cs |}.

(** *** Computations that change the world and may raise *)

Definition M (A : Type) : Type := World -> Outcome A * World.

Definition ret {A} (a : A) : M A := fun w => (Ret a, w).

Definition bind {A B} (m : M A) (k : A -> M B) : M B :=
  fun w =>
    match m w with
    | (Ret a, w') => k a w'
    | (Raise e, w') => (Raise e, w')
    end.

Definition raise {A} (e : Py.exn) : M A := fun w => (Raise e, w).

Definition gets {A} (f : World -> A) : M A := fun w => (Ret (f w), w).

Definition modify (f : World -> World) : M unit := fun w => (Ret tt, f w).

(** try: body / except: handler *)
Definition try_except {A} (body : M A) (handler : Py.exn -> M A) : M A :=
  fun w =>
    match body w with
    | (Ret a, w') => (Ret a, w')
    | (Raise e, w') => handler e w'
    end.

Declare Scope run_scope.
Delimit Scope run_scope with run.
Notation "x ← y ; z" := (bind y (fun x => z))
  (at level 20, y at level 100, z at level 200, only parsing) : run_scope.
Notation "x ;; z" := (bind x (fun _ => z))
  (at level 100, z at level 200, only parsing, right associativity) : run_scope.
Local Open Scope run_scope.

Variable gp : Geoprocessor Geometry Point SpatialReference.
Variable E : Collaborators.

(** A call into a library: it is recorded, and it raises when the
    collaborators say so. *)
Definition call (cs : CallSite) : M unit :=
  fun w =>
    let w' := set_calls (calls w ++ [cs]) w in
    match fault E cs with
    | Some e => (Raise e, w')
    | None => (Ret tt, w')
    end.

Definition AddMessage (s : string) : M unit :=
  modify (fun w => set_messages (messages w ++ [(Info, s)]) w).

Definition AddError (s : string) : M unit :=
  modify (fun w => set_messages (messages w ++ [(Error, s)]) w).

(** arcpy.management.CreateFileGDB(out_folder_path, out_name): the file
    geodatabase of that name is there afterwards.  The call is made with
    overwriteOutput True (line 59), so a geodatabase of that name does not
    make it fail.  Like every geoprocessing tool here, it is taken to leave
    the SQLite files alone. *)
Definition CreateFileGDB (out_folder_path out_name : string) : M unit :=
  call cs_CreateFileGDB;;
  modify (fun w =>
    set_geodatabases ({[os_path_join E out_folder_path out_name]} ∪ geodatabases w) w).

(** shutil.copyfile (Python 3): a file that is not there cannot be the same
    as another, so a missing source gives FileNotFoundError when it is
    opened; a source that is there is not copied onto itself.  A file is
    known by its path. *)
Definition copyfile (src dst : string) : M unit :=
  call cs_copyfile;;
  fs ← gets files;
  match fs !! src with
  | None => raise (Py.Exception "FileNotFoundError")
  | Some db =>
      if bool_decide (src = dst) then raise (Py.Exception "SameFileError")
      else modify (set_files (<[dst := db]> fs))
  end.

(** sqlite3.connect: "connect to or create the SQL file".  The connection
    is known by the path of its file. *)
Definition connect (database : string) : M string :=
  call cs_connect;;
  fs ← gets files;
  match fs !! database with
  | Some _ => ret database
  | None => modify (set_files (<[database := ∅]> fs));; ret database
  end.

(** c.execute / c.executemany: the statement acts on the file of the
    connection. *)
Definition execute (cs : CallSite) (conn : string)
    (statement : Sql.database -> option Sql.database) : M unit :=
  call cs;;
  fs ← gets files;
  match fs !! conn with
  | None => raise (Py.Exception "OperationalError")
  | Some db =>
      match statement db with
      | None => raise (Py.Exception "OperationalError")
      | Some db' => modify (set_files (<[conn := db']> fs))
      end
  end.

Definition read_dataset (path : string) : M (FeatureClass Geometry) :=
  ds ← gets datasets;
  match ds !! path with
  | Some fc => ret fc
  | None => raise (Py.Exception "ExecuteError")
  end.

Definition write_dataset (path : string) (fc : FeatureClass Geometry) : M unit :=
  modify (fun w => set_datasets (<[path := fc]> (datasets w)) w).

(** A tool that changes a feature class in place. *)
Definition update_dataset (cs : CallSite) (path : string)
    (f : FeatureClass Geometry -> FeatureClass Geometry) : M unit :=
  call cs;;
  fc ← read_dataset path;
  write_dataset path (f fc).

(** *** The body of the SearchCursor loop (lines 171-176) *)

Definition read_row (acc : list Z * list (Z * option string)) (row : Z * option string)
  : list Z * list (Z * option string) :=
  let '(FIDsToDelete, AddToStackedPts) := acc in
  if Py.is_falsy row.2 then (FIDsToDelete ++ [row.1], AddToStackedPts)
  else (FIDsToDelete, AddToStackedPts ++ [(row.1, row.2)]).

Definition read_StackedPoints (cursor : list (Z * option string))
  : list Z * list (Z * option string) :=
  fold_left read_row cursor ([], []).

(** The parameters of one INSERT INTO StackedPoints (Polygon_FID, stop_id). *)
Definition sql_parameters (item : Z * option string) : list Sql.value :=
  [Sql.Integer item.1;
   match item.2 with
   | Some s => Sql.Text s
   | None => Sql.Null
   end].

(** *** The where clause (lines 194-199) *)

Definition WhereClause (OutputOIDName : string) (FIDsToDelete : gset Z) : SqlExpr :=
  if bool_decide (FIDsToDelete ≠ ∅)
  then Or (FieldEqZero "Shape_Area") (FieldIn OutputOIDName (elements FIDsToDelete))
  else FieldEqZero "Shape_Area".

(** *** The four stages *)

Definition reraise_with {A} (message : string) (body : M A) : M A :=
  try_except body (fun e => AddError message;; raise e).

Definition setup (outDir outGDB inSQLDbase imp TrimSettings : string)
  : M (string * string * string * string * string) :=
  reraise_with (stage_error Setup)
    (call cs_CheckArcVersion;;
     call cs_CheckArcInfoLicense;;
     call cs_CheckOutNALicense;;
     call cs_CheckWorkspace;;
     OverwriteOutput ← gets overwriteOutput;
     modify (set_overwriteOutput true);;
     let outGDB :=
       if negb (Py.endswith (Py.lower outGDB) ".gdb") then outGDB +:+ ".gdb" else outGDB in
     let outGDBwPath := os_path_join E outDir outGDB in
     CreateFileGDB outDir outGDB;;
     let SQLDbase := os_path_join E outGDBwPath "Step1_GTFS.sql" in
     copyfile inSQLDbase SQLDbase;;
     conn ← connect SQLDbase;
     call cs_CleanUpImpedance;;
     let impedanceAttribute := CleanUpImpedance E imp in
     call cs_CleanUpTrimSettings;;
     let '(TrimPolys, TrimPolysValue) := CleanUpTrimSettings E TrimSettings in
     ret (outGDBwPath, conn, impedanceAttribute, TrimPolys, TrimPolysValue)).

Definition make_stops (outGDBwPath conn : string) : M (Layer * list string) :=
  reraise_with (stage_error Stops)
    (AddMessage "Creating a feature class of GTFS stops...";;
     call cs_MakeStopsFeatureClass;;
     fs ← gets files;
     ret (MakeStopsFeatureClass E (os_path_join E outGDBwPath "Step1_Stops")
            (default ∅ (fs !! conn)))).

Definition make_service_areas (StopsLayer : Layer)
    (inNetworkDataset impedanceAttribute BufferSize restrictions TrimPolys
       TrimPolysValue : string) : M (list (BufferPolygon Geometry)) :=
  reraise_with (stage_error ServiceAreas)
    (AddMessage "Creating service areas around stops...";;
     AddMessage "(This step will take a while for large networks.)";;
     call cs_MakeServiceAreasAroundStops;;
     ret (MakeServiceAreasAroundStops E StopsLayer inNetworkDataset impedanceAttribute
            BufferSize restrictions TrimPolys TrimPolysValue)).

Definition post_process_body (outGDBwPath conn : string)
    (polygons : list (BufferPolygon Geometry)) : M unit :=
  AddMessage "Reformatting polygons for further analysis...";;
  AddMessage "(This step will take a while for large networks.)";;
  (* Flatten the overlapping service area polygons *)
  modify (set_outputCoordinateSystem (Some (WorldCylindrical E)));;
  call cs_CreateFeatureclass;;
  let FlatPolys := os_path_join E outGDBwPath "Step1_FlatPolys" in
  let clusTol := "5 meters" in
  call cs_FeatureToPolygon;;
  sr ← gets outputCoordinateSystem;
  write_dataset FlatPolys (FeatureToPolygon gp sr polygons clusTol);;
  call cs_Delete_dummypoints;;
  update_dataset (cs_AddField "PolyID") FlatPolys (fun fc => AddField fc "PolyID" "LONG");;
  update_dataset (cs_AddField "NumTrips") FlatPolys (fun fc => AddField fc "NumTrips" "LONG");;
  update_dataset (cs_AddField "NumTripsPerHr") FlatPolys
    (fun fc => AddField fc "NumTripsPerHr" "DOUBLE");;
  update_dataset (cs_AddField "NumStopsInRange") FlatPolys
    (fun fc => AddField fc "NumStopsInRange" "LONG");;
  update_dataset (cs_AddField "MaxWaitTime") FlatPolys
    (fun fc => AddField fc "MaxWaitTime" "DOUBLE");;
  (* Create stacked points, one for each original SA polygon *)
  call cs_FeatureToPoint;;
  fc ← read_dataset FlatPolys;
  let FlattenedPoints := FeatureToPoint gp fc in
  call cs_Identity;;
  let StackedPoints := Identity gp FlattenedPoints polygons in
  call cs_Delete_FlattenedPoints;;
  (* Read the Stacked Points into an SQL table *)
  execute cs_execute_drop conn (fun db => Some (Sql.drop_table_if_exists "StackedPoints" db));;
  let schema := "Polygon_FID LONG, stop_id TEXT" in
  execute cs_execute_create conn (Sql.create_table "StackedPoints" schema);;
  call cs_SearchCursor;;
  let '(FIDsToDelete, AddToStackedPts) := read_StackedPoints StackedPoints in
  execute cs_executemany conn
    (Sql.insert_many "StackedPoints" (map sql_parameters AddToStackedPts));;
  call cs_commit;;
  call cs_Delete_StackedPoints;;
  let FIDsToDelete : gset Z := list_to_set FIDsToDelete in
  (* Delete polygons not associated with any stop_ids *)
  call cs_Describe;;
  desc2 ← read_dataset FlatPolys;
  let OutputOIDName := OIDFieldName desc2 in
  let WhereClause := WhereClause OutputOIDName FIDsToDelete in
  call cs_MakeFeatureLayer;;
  update_dataset cs_DeleteFeatures FlatPolys (fun fc => DeleteFeatures fc WhereClause);;
  (* Populate the PolyID field *)
  update_dataset cs_CalculateField FlatPolys
    (fun fc => CalculateField fc "PolyID" OutputOIDName).

Definition post_process (outGDBwPath conn : string)
    (polygons : list (BufferPolygon Geometry)) : M unit :=
  reraise_with (stage_error PostProcessing) (post_process_body outGDBwPath conn polygons).

Definition SetParameterAsText (index : nat) (text : string) : M unit :=
  call (cs_SetParameterAsText index);;
  modify (fun w => set_parameters (<[index := text]> (parameters w)) w).

(** *** runTool *)

Definition run_body (outDir outGDB inSQLDbase inNetworkDataset imp BufferSize
    restrictions TrimSettings : string) : M unit :=
  locals ← setup outDir outGDB inSQLDbase imp TrimSettings;
  let '(outGDBwPath, conn, impedanceAttribute, TrimPolys, TrimPolysValue) := locals in
  stops ← make_stops outGDBwPath conn;
  let '(StopsLayer, StopIDList) := stops in
  polygons ← make_service_areas StopsLayer inNetworkDataset impedanceAttribute BufferSize
               restrictions TrimPolys TrimPolysValue;
  post_process outGDBwPath conn polygons;;
  AddMessage "Done!";;
  AddMessage ("Files written to output geodatabase " +:+ outGDBwPath +:+ ":");;
  AddMessage "- Step1_Stops";;
  AddMessage "- Step1_FlatPolys";;
  AddMessage "- Step1_GTFS.sql";;
  SetParameterAsText 8 (os_path_join E outGDBwPath "Step1_Stops");;
  SetParameterAsText 9 (os_path_join E outGDBwPath "Step1_FlatPolys");;
  SetParameterAsText 10 (os_path_join E outGDBwPath "Step1_GTFS.sql").

(** except BBB_SharedFunctions.CustomError: AddError(...); pass
    except: AddError(...); raise *)
Definition runTool (outDir outGDB inSQLDbase inNetworkDataset imp BufferSize
    restrictions TrimSettings : string) : M unit :=
  try_except
    (run_body outDir outGDB inSQLDbase inNetworkDataset imp BufferSize restrictions
       TrimSettings)
    (fun e =>
       if Py.is_CustomError e
       then AddError failed;; ret tt
       else AddError failed;; raise e).

(** *** What post-processing computes, step by step

    The values below are the ones [post_process_body] passes from one call
    to the next; [post_process_body_spec] (further down) proves it. *)

(** Step1_FlatPolys after FeatureToPolygon and the five AddField. *)
Definition FlatPolys_flattened (polygons : list (BufferPolygon Geometry))
  : FeatureClass Geometry :=
  AddField
    (AddField
       (AddField
          (AddField
             (AddField
                (FeatureToPolygon gp (Some (WorldCylindrical E)) polygons "5 meters")
                "PolyID" "LONG")
             "NumTrips" "LONG")
          "NumTripsPerHr" "DOUBLE")
       "NumStopsInRange" "LONG")
    "MaxWaitTime" "DOUBLE".

(** The rows the SearchCursor on Step1_StackedPoints yields. *)
Definition StackedPtCursor (polygons : list (BufferPolygon Geometry))
  : list (Z * option string) :=
  Identity gp (FeatureToPoint gp (FlatPolys_flattened polygons)) polygons.

Definition FIDsToDelete (polygons : list (BufferPolygon Geometry)) : gset Z :=
  list_to_set (read_StackedPoints (StackedPtCursor polygons)).1.

Definition AddToStackedPts (polygons : list (BufferPolygon Geometry))
  : list (Z * option string) :=
  (read_StackedPoints (StackedPtCursor polygons)).2.

(** Lines 190-210: delete the selected polygons, then set PolyID. *)
Definition cleanup (fc : FeatureClass Geometry) (FIDsToDelete : gset Z)
  : FeatureClass Geometry :=
  CalculateField
    (DeleteFeatures fc (WhereClause (OIDFieldName fc) FIDsToDelete))
    "PolyID" (OIDFieldName fc).

(** Step1_FlatPolys at the end of the run. *)
Definition FlatPolys_final (polygons : list (BufferPolygon Geometry))
  : FeatureClass Geometry :=
  cleanup (FlatPolys_flattened polygons) (FIDsToDelete polygons).

(** The table StackedPoints of Step1_GTFS.sql at the end of the run. *)
Definition StackedPoints_table (polygons : list (BufferPolygon Geometry)) : Sql.table :=
  {| Sql.tbl_schema := "Polygon_FID LONG, stop_id TEXT";
     Sql.tbl_rows := map sql_parameters (AddToStackedPts polygons) |}.

(** The calls of each stage, in the order of the source. *)
Definition setup_calls : list CallSite :=
  [cs_CheckArcVersion; cs_CheckArcInfoLicense; cs_CheckOutNALicense; cs_CheckWorkspace;
   cs_CreateFileGDB; cs_copyfile; cs_connect; cs_CleanUpImpedance; cs_CleanUpTrimSettings].

Definition post_process_calls : list CallSite :=
  [cs_CreateFeatureclass; cs_FeatureToPolygon; cs_Delete_dummypoints;
   cs_AddField "PolyID"; cs_AddField "NumTrips"; cs_AddField "NumTripsPerHr";
   cs_AddField "NumStopsInRange"; cs_AddField "MaxWaitTime";
   cs_FeatureToPoint; cs_Identity; cs_Delete_FlattenedPoints;
   cs_execute_drop; cs_execute_create; cs_SearchCursor; cs_executemany; cs_commit;
   cs_Delete_StackedPoints; cs_Describe; cs_MakeFeatureLayer; cs_DeleteFeatures;
   cs_CalculateField].

Definition runTool_calls : list CallSite :=
  setup_calls ++ [cs_MakeStopsFeatureClass] ++ [cs_MakeServiceAreasAroundStops]
    ++ post_process_calls
    ++ [cs_SetParameterAsText 8; cs_SetParameterAsText 9; cs_SetParameterAsText 10].

(** *** Notions the properties are stated with *)

(** The service areas that cover the point stacked for a polygon. *)
Definition covering (polygons : list (BufferPolygon Geometry)) (f : Feature Geometry)
  : list (BufferPolygon Geometry) :=
  filter (fun b => gp_contains gp (sa_Shape b) (gp_inside gp (Shape f)) = true) polygons.

(** A row once CalculateField has set its PolyID. *)
Definition with_PolyID (f : Feature Geometry) : Feature Geometry :=
  {| OID := OID f; Shape := Shape f; Shape_Area := Shape_Area f;
     attrs := <["PolyID" := VLong (OID f)]> (attrs f) |}.

(** The name of the output geodatabase (lines 62-64). *)
Definition outGDBwPath_of (outDir outGDB : string) : string :=
  os_path_join E outDir
    (if negb (Py.endswith (Py.lower outGDB) ".gdb") then outGDB +:+ ".gdb" else outGDB).

Definition SQLDbase_of (outDir outGDB : string) : string :=
  os_path_join E (outGDBwPath_of outDir outGDB) "Step1_GTFS.sql".

(** The service areas of a run, from its arguments and the copy of the
    input database. *)
Definition polygons_of (outDir outGDB inNetworkDataset imp BufferSize restrictions
    TrimSettings : string) (db : Sql.database) : list (BufferPolygon Geometry) :=
  MakeServiceAreasAroundStops E
    (MakeStopsFeatureClass E
       (os_path_join E (outGDBwPath_of outDir outGDB) "Step1_Stops") db).1
    inNetworkDataset (CleanUpImpedance E imp) BufferSize restrictions
    (CleanUpTrimSettings E TrimSettings).1 (CleanUpTrimSettings E TrimSettings).2.

Definition post_process_infos : list (Severity * string) :=
  [(Info, "Reformatting polygons for further analysis...");
   (Info, "(This step will take a while for large networks.)")].

Definition run_infos (outGDBwPath : string) : list (Severity * string) :=
  [(Info, "Creating a feature class of GTFS stops...");
   (Info, "Creating service areas around stops...");
   (Info, "(This step will take a while for large networks.)");
   (Info, "Reformatting polygons for further analysis...");
   (Info, "(This step will take a while for large networks.)");
   (Info, "Done!");
   (Info, "Files written to output geodatabase " +:+ outGDBwPath +:+ ":");
   (Info, "- Step1_Stops");
   (Info, "- Step1_FlatPolys");
   (Info, "- Step1_GTFS.sql")].

Definition infos_only (ms : list (Severity * string)) : Prop :=
  Forall (fun m => m.1 = Info) ms.

(** The informative messages of a run that come before the calls of a
    stage, or before SetParameterAsText. *)
Definition infos_until (outGDBwPath : string) (st : option Stage)
  : list (Severity * string) :=
  match st with
  | Some Setup => []
  | Some Stops => take 1 (run_infos outGDBwPath)
  | Some ServiceAreas => take 3 (run_infos outGDBwPath)
  | Some PostProcessing => take 5 (run_infos outGDBwPath)
  | None => run_infos outGDBwPath
  end.

(** How the call [cs] of a run started in [w] raises [e]: the library
    raises it, or the call is the copy and the input database is not there,
    or is the file to write. *)
Definition raises (inSQLDbase SQLDbase : string) (w : World) (cs : CallSite) (e : Py.exn)
  : Prop :=
  fault E cs = Some e \/
  cs = cs_copyfile /\ fault E cs = None /\
  ((files w !! inSQLDbase = None /\ e = Py.Exception "FileNotFoundError") \/
   (files w !! inSQLDbase <> None /\ inSQLDbase = SQLDbase /\
    e = Py.Exception "SameFileError")).

(** C4, as the spec has it: every row of StackedPoints references a
    polygon of the final Step1_FlatPolys. *)
Definition links_reference_final_cells (polygons : list (BufferPolygon Geometry)) : Prop :=
  forall (fid : Z) (s : string),
    [Sql.Integer fid; Sql.Text s] ∈ Sql.tbl_rows (StackedPoints_table polygons) ->
    exists f, f ∈ rows (FlatPolys_final polygons) /\ PolyID f = Some fid.

(** C5, as the spec has it: the PolyID of a polygon of the final
    Step1_FlatPolys is its position, 1, 2, 3, ... without gaps. *)
Definition PolyID_is_position (polygons : list (BufferPolygon Geometry)) : Prop :=
  map PolyID (rows (FlatPolys_final polygons)) =
  map Some (seqZ 1 (Z.of_nat (length (rows (FlatPolys_final polygons))))).

(** C7, as the spec has it: an error raised inside the run is raised to
    the caller. *)
Definition every_error_is_reraised : Prop :=
  forall (outDir outGDB inSQLDbase inNetworkDataset imp BufferSize restrictions
            TrimSettings : string) (w w1 : World) (e : Py.exn),
    run_body outDir outGDB inSQLDbase inNetworkDataset imp BufferSize restrictions
      TrimSettings w = (Raise e, w1) ->
    (runTool outDir outGDB inSQLDbase inNetworkDataset imp BufferSize restrictions
       TrimSettings w).1 = Raise e.

End Run.

Arguments Collaborators : clear implicits.
Arguments World : clear implicits.

(** ** Further notions *)

(** Lines 62-63: ".gdb" is appended to the geodatabase name unless the name
    ends with it already, whatever the case of its letters. *)
Definition with_gdb (outGDB : string) : string :=
  if negb (Py.endswith (Py.lower outGDB) ".gdb") then outGDB +:+ ".gdb" else outGDB.

(** "field IN ()" is not SQL: a where clause is usable when no IN list is
    empty. *)
Fixpoint no_empty_IN (e : SqlExpr) : Prop :=
  match e with
  | FieldEqZero _ => True
  | FieldIn _ values => values <> []
  | Or a b => no_empty_IN a /\ no_empty_IN b
  end.

Section After_a_run.

Context {Geometry Point SpatialReference Layer : Type}.
Variable gp : Geoprocessor Geometry Point SpatialReference.
Variable E : Collaborators Geometry SpatialReference Layer.

(** The world a run leaves when nothing raises, [db] being the input
    database. *)
Definition world_after_run (outDir outGDB inNetworkDataset imp BufferSize restrictions
    TrimSettings : string) (db : Sql.database) (w : World Geometry SpatialReference)
  : World Geometry SpatialReference :=
  let outGDBwPath := outGDBwPath_of E outDir outGDB in
  let polygons :=
    polygons_of E outDir outGDB inNetworkDataset imp BufferSize restrictions TrimSettings db in
  {| files :=
       <[SQLDbase_of E outDir outGDB :=
           <["StackedPoints" := StackedPoints_table gp E polygons]> db]> (files w);
     datasets :=
       <[os_path_join E outGDBwPath "Step1_FlatPolys" := FlatPolys_final gp E polygons]>
         (datasets w);
     geodatabases := {[outGDBwPath]} ∪ geodatabases w;
     overwriteOutput := true;
     outputCoordinateSystem := Some (WorldCylindrical E);
     messages := messages w ++ run_infos outGDBwPath;
     parameters :=
       <[10%nat := os_path_join E outGDBwPath "Step1_GTFS.sql"]>
         (<[9%nat := os_path_join E outGDBwPath "Step1_FlatPolys"]>
            (<[8%nat := os_path_join E outGDBwPath "Step1_Stops"]> (parameters w)));
     calls := calls w ++ runTool_calls |}.

(** Two worlds hold the same files, but for one path. *)
Definition files_agree_except (path : string) (w w' : World Geometry SpatialReference)
  : Prop :=
  forall p, p <> path -> files w' !! p = files w !! p.

(** Two worlds hold the same feature classes, but for one path. *)
Definition datasets_agree_except (path : string) (w w' : World Geometry SpatialReference)
  : Prop :=
  forall p, p <> path -> datasets w' !! p = datasets w !! p.

End After_a_run.

(** ** A small instance

    A line of unit cells stands for the plane: a geometry is the list of the
    cells it is made of, together with its area; the point inside it is its
    first cell.  The flattened polygons are given, as the geoprocessor would
    return them. *)

Module Example.

Definition Geometry0 : Type := list Z * float.

Definition gp_of (flattened : list Geometry0) : Geoprocessor Geometry0 Z Z :=
  {| gp_area := fun g => g.2;
     gp_inside := fun g => hd 0 g.1;
     gp_contains := fun g p => bool_decide (p ∈ g.1);
     gp_flatten := fun _ _ _ => flattened |}.

Definition E_of (fault : CallSite -> option Py.exn)
    (polygons : list (BufferPolygon Geometry0)) : Collaborators Geometry0 Z (list string) :=
  {| fault := fault;
     os_path_join := fun a b => a +:+ "/" +:+ b;
     WorldCylindrical := 54034;
     CleanUpImpedance := fun imp => imp;
     CleanUpTrimSettings := fun TrimSettings => (TrimSettings, "");
     MakeStopsFeatureClass := fun _ _ => (["S1"; "S2"], ["S1"; "S2"]);
     MakeServiceAreasAroundStops := fun _ _ _ _ _ _ _ => polygons |}.

Definition no_fault : CallSite -> option Py.exn := fun _ => None.

(** Two service areas that overlap on cell 2. *)
Definition overlapping : list (BufferPolygon Geometry0) :=
  [{| stop_id := "S1"; sa_Shape := ([1; 2], 2%float) |};
   {| stop_id := "S2"; sa_Shape := ([2; 3], 2%float) |}].

(** Flattened into three polygons: S1 only, the overlap, S2 only. *)
Definition three_cells : list Geometry0 :=
  [([1], 1%float); ([2], 1%float); ([3], 1%float)].

(** The same, but the overlap has come out as a sliver of area 0. *)
Definition with_sliver : list Geometry0 :=
  [([1], 1%float); ([2], 0%float); ([3], 1%float)].

(** Two service areas apart, and a polygon made of the area they enclose
    without covering it (cell 2). *)
Definition apart : list (BufferPolygon Geometry0) :=
  [{| stop_id := "S1"; sa_Shape := ([1], 1%float) |};
   {| stop_id := "S2"; sa_Shape := ([3], 1%float) |}].

(** The same three polygons, the enclosed area flattened last. *)
Definition enclosed_last : list Geometry0 :=
  [([1], 1%float); ([3], 1%float); ([2], 1%float)].

Definition GTFS : Sql.database :=
  {["stops" := {| Sql.tbl_schema := "stop_id TEXT";
                  Sql.tbl_rows := [[Sql.Text "S1"]; [Sql.Text "S2"]] |}]}.

Definition w0 : World Geometry0 Z :=
  {| files := {["C:/in/GTFS.sql" := GTFS]};
     datasets := ∅;
     geodatabases := ∅;
     overwriteOutput := false;
     outputCoordinateSystem := None;
     messages := [];
     parameters := ∅;
     calls := [] |}.

(** The database once the post-processing of the overlapping service areas
    is over. *)
Definition db_overlapping : Sql.database :=
  <["StackedPoints" :=
      StackedPoints_table (gp_of three_cells) (E_of no_fault overlapping) overlapping]> GTFS.

(** The polygon of the overlap, as the run leaves it. *)
Definition overlap_cell : Feature Geometry0 :=
  {| OID := 2; Shape := ([2], 1%float); Shape_Area := 1%float;
     attrs := {["PolyID" := VLong 2]} |}.

(** CheckArcVersion raises a CustomError. *)
Definition old_version : CallSite -> option Py.exn :=
  fun cs =>
    match cs with
    | cs_CheckArcVersion => Some (Py.CustomError "ArcGIS Pro 1.2 or higher is required")
    | _ => None
    end.



(** DeleteFeatures raises, Step1_FlatPolys being locked. *)
Definition locked : CallSite -> option Py.exn :=
  fun cs =>
    match cs with
    | cs_DeleteFeatures => Some (Py.Exception "ExecuteError")
    | _ => None
    end.

(** No file at all. *)
Definition w_no_input : World Geometry0 Z := set_files ∅ w0.

End Example.

(** * Properties *)

(** ** The tools, one by one *)

Section Tool_facts.

Context {Geometry Point SpatialReference : Type}.
Variable gp : Geoprocessor Geometry Point SpatialReference.

Lemma new_rows_OID (gs : list Geometry) (next : Z) :
  map OID (new_rows gp next gs) = seqZ next (Z.of_nat (length gs)).
Proof.
  revert next; induction gs as [|g gs IH]; intros next; [done|].
  cbn [new_rows map length OID]. rewrite IH.
  rewrite Nat2Z.inj_succ, (seqZ_cons next) by lia.
  by rewrite Z.pred_succ.
Qed.

Lemma new_rows_Shape_Area (gs : list Geometry) (next : Z) (f : Feature Geometry) :
  f ∈ new_rows gp next gs -> Shape_Area f = gp_area gp (Shape f) /\ attrs f = ∅.
Proof.
  revert next; induction gs as [|g gs IH]; intros next; cbn [new_rows].
  - by intros ?%elem_of_nil.
  - intros [->|?]%elem_of_cons; [done|eauto].
Qed.

(** The stacked points of one polygon id. *)
Lemma elem_of_Identity (pts : list (PointFeature Point))
    (polygons : list (BufferPolygon Geometry)) (fid : Z) (v : option string) :
  (fid, v) ∈ Identity gp pts polygons <->
  exists p, p ∈ pts /\ ORIG_FID p = fid /\
    let covering :=
      filter (fun b => gp_contains gp (sa_Shape b) (pt_Shape p) = true) polygons in
    (covering = [] /\ v = None) \/ (exists b, b ∈ covering /\ v = Some (stop_id b)).
Proof.
  unfold Identity. rewrite list_elem_of_In, in_flat_map. cbn zeta.
  split.
  - intros (p & Hp & Hin). exists p. rewrite list_elem_of_In. split; [done|].
    destruct (filter _ polygons) as [|b bs] eqn:Hc.
    + apply list_elem_of_In, list_elem_of_singleton in Hin.
      injection Hin as -> ->. auto.
    + apply in_map_iff in Hin as (b' & [= <- <-] & Hb').
      split; [done|]. right. exists b'. by rewrite list_elem_of_In.
  - intros (p & Hp & <- & Hv). exists p. rewrite <- list_elem_of_In. split; [done|].
    destruct Hv as [[-> ->]|(b & Hb & ->)].
    + apply list_elem_of_In, list_elem_of_singleton. done.
    + destruct (filter _ polygons) as [|b0 bs]; [by apply elem_of_nil in Hb|].
      apply in_map_iff. exists b. by rewrite <- list_elem_of_In.
Qed.

Lemma read_row_fold (cursor : list (Z * option string))
    (acc : list Z * list (Z * option string)) :
  fold_left read_row cursor acc =
  (acc.1 ++ map fst (filter (fun row => Py.is_falsy row.2 = true) cursor),
   acc.2 ++ filter (fun row => Py.is_falsy row.2 = false) cursor).
Proof.
  revert acc; induction cursor as [|[fid v] cursor IH]; intros [fids items].
  - cbn. by rewrite !app_nil_r.
  - cbn [fold_left]. rewrite IH. unfold read_row.
    rewrite !filter_cons.
    destruct (Py.is_falsy (fid, v).2) eqn:Hrow; repeat case_decide; try done;
      cbn; by rewrite <- List.app_assoc.
Qed.

Lemma read_StackedPoints_eq (cursor : list (Z * option string)) :
  read_StackedPoints cursor =
  (map fst (filter (fun row => Py.is_falsy row.2 = true) cursor),
   filter (fun row => Py.is_falsy row.2 = false) cursor).
Proof. unfold read_StackedPoints. by rewrite read_row_fold. Qed.

End Tool_facts.

(** ** What the post-processing leaves behind *)

Section Kernel.

Context {Geometry Point SpatialReference Layer : Type}.
Variable gp : Geoprocessor Geometry Point SpatialReference.
Variable E : Collaborators Geometry SpatialReference Layer.

Implicit Types polygons : list (BufferPolygon Geometry).
Implicit Types f : Feature Geometry.
Implicit Types fc : FeatureClass Geometry.

Lemma FlatPolys_flattened_rows polygons :
  rows (FlatPolys_flattened gp E polygons) =
  new_rows gp 1 (gp_flatten gp (Some (WorldCylindrical E)) "5 meters" polygons).
Proof. reflexivity. Qed.

Lemma FlatPolys_flattened_OIDs polygons :
  map OID (rows (FlatPolys_flattened gp E polygons)) =
  seqZ 1 (Z.of_nat (length (rows (FlatPolys_flattened gp E polygons)))).
Proof.
  rewrite FlatPolys_flattened_rows, new_rows_OID. f_equal. f_equal.
  rewrite <- (length_map OID), new_rows_OID, length_seqZ. lia.
Qed.

Lemma FlatPolys_flattened_OID_inj polygons f1 f2 :
  f1 ∈ rows (FlatPolys_flattened gp E polygons) ->
  f2 ∈ rows (FlatPolys_flattened gp E polygons) ->
  OID f1 = OID f2 -> f1 = f2.
Proof.
  intros H1 H2 Heq.
  pose proof (NoDup_seqZ 1 (Z.of_nat (length (rows (FlatPolys_flattened gp E polygons)))))
    as Hnd.
  rewrite <- FlatPolys_flattened_OIDs in Hnd.
  revert H1 H2 Heq Hnd. generalize (rows (FlatPolys_flattened gp E polygons)).
  induction l as [|f l IH]; [by intros ?%elem_of_nil|].
  cbn [map]. intros H1 H2 Heq [Hf Hnd]%NoDup_cons.
  apply elem_of_cons in H1 as [->|H1]; apply elem_of_cons in H2 as [->|H2]; auto.
  - destruct Hf. rewrite Heq. apply list_elem_of_In, in_map. by apply list_elem_of_In.
  - destruct Hf. rewrite <- Heq. apply list_elem_of_In, in_map. by apply list_elem_of_In.
Qed.

Lemma selects_WhereClause fc f (fids : gset Z) :
  OIDFieldName fc = "OBJECTID" ->
  selects fc (WhereClause (OIDFieldName fc) fids) f =
  PrimFloat.eqb (Shape_Area f) 0 || bool_decide (OID f ∈ fids).
Proof.
  intros Hname. unfold WhereClause. rewrite Hname.
  assert (Harea : selects fc (FieldEqZero "Shape_Area") f = PrimFloat.eqb (Shape_Area f) 0).
  { cbn. unfold field_value. by rewrite Hname. }
  case_bool_decide as Hfids.
  - change (selects fc (Or ?a ?b) f) with (selects fc a f || selects fc b f).
    rewrite Harea. f_equal. cbn [selects].
    unfold field_value. rewrite Hname, bool_decide_eq_true_2 by done. cbn.
    apply bool_decide_ext. by rewrite elem_of_elements.
  - rewrite Harea. assert (fids = ∅) as -> by (by destruct (decide (fids = ∅))).
    rewrite (bool_decide_eq_false_2 (OID f ∈ ∅)) by set_solver.
    by rewrite orb_false_r.
Qed.

Lemma cleanup_rows fc (fids : gset Z) :
  OIDFieldName fc = "OBJECTID" ->
  rows (cleanup fc fids) =
  map with_PolyID
    (filter (fun f => PrimFloat.eqb (Shape_Area f) 0 || bool_decide (OID f ∈ fids) = false)
       (rows fc)).
Proof.
  intros Hname. unfold cleanup, CalculateField, DeleteFeatures. cbn [rows OIDFieldName].
  rewrite (list_filter_iff _
    (fun f => PrimFloat.eqb (Shape_Area f) 0 || bool_decide (OID f ∈ fids) = false)).
  2:{ intros f. by rewrite selects_WhereClause. }
  apply map_ext. intros f. unfold calculate_row, field_value. cbn [OIDFieldName].
  by rewrite bool_decide_eq_true_2.
Qed.

Lemma elem_of_StackedPtCursor polygons (fid : Z) (v : option string) :
  (fid, v) ∈ StackedPtCursor gp E polygons <->
  exists f, f ∈ rows (FlatPolys_flattened gp E polygons) /\ OID f = fid /\
    ((covering gp polygons f = [] /\ v = None) \/
     (exists b, b ∈ covering gp polygons f /\ v = Some (stop_id b))).
Proof.
  unfold StackedPtCursor. rewrite elem_of_Identity. unfold FeatureToPoint. split.
  - intros (p & Hp & Hfid & Hv).
    apply list_elem_of_In, in_map_iff in Hp as (f & <- & Hf).
    exists f. rewrite list_elem_of_In. by repeat split.
  - intros (f & Hf & Hfid & Hv).
    exists {| pt_Shape := gp_inside gp (Shape f); ORIG_FID := OID f |}.
    split; [|by split].
    apply list_elem_of_In, in_map_iff. exists f. by rewrite <- list_elem_of_In.
Qed.

Lemma elem_of_FIDsToDelete polygons (fid : Z) :
  fid ∈ FIDsToDelete gp E polygons <->
  exists v, (fid, v) ∈ StackedPtCursor gp E polygons /\ Py.is_falsy v = true.
Proof.
  unfold FIDsToDelete. rewrite elem_of_list_to_set, read_StackedPoints_eq. cbn [fst].
  rewrite list_elem_of_In, in_map_iff. split.
  - intros ([fid' v] & <- & Hin).
    apply list_elem_of_In, list_elem_of_filter in Hin as [Hv Hin]. by exists v.
  - intros (v & Hin & Hv). exists (fid, v). split; [done|].
    apply list_elem_of_In, list_elem_of_filter. by split.
Qed.

Lemma elem_of_AddToStackedPts polygons (item : Z * option string) :
  item ∈ AddToStackedPts gp E polygons <->
  item ∈ StackedPtCursor gp E polygons /\ Py.is_falsy item.2 = false.
Proof.
  unfold AddToStackedPts. rewrite read_StackedPoints_eq. cbn [snd].
  rewrite list_elem_of_filter. tauto.
Qed.

Lemma is_falsy_Some (s : string) : Py.is_falsy (Some s) = false <-> s <> "".
Proof. cbn. by rewrite bool_decide_eq_false. Qed.

Lemma elem_of_StackedPoints_table polygons (fid : Z) (s : string) :
  [Sql.Integer fid; Sql.Text s] ∈ Sql.tbl_rows (StackedPoints_table gp E polygons) <->
  (fid, Some s) ∈ StackedPtCursor gp E polygons /\ s <> "".
Proof.
  cbn [StackedPoints_table Sql.tbl_rows]. rewrite list_elem_of_In, in_map_iff. split.
  - intros ([fid' [s'|]] & Heq & Hin); [|discriminate].
    injection Heq as -> ->.
    apply list_elem_of_In, elem_of_AddToStackedPts in Hin as [Hin Hs].
    split; [done|]. by apply is_falsy_Some.
  - intros [Hin Hs]. exists (fid, Some s). split; [done|].
    apply list_elem_of_In, elem_of_AddToStackedPts. split; [done|].
    by apply is_falsy_Some.
Qed.

Lemma elem_of_links_for_cell (db : Sql.database) (cell_id : Z) (s : string) :
  s ∈ links_for_cell db cell_id <->
  [Sql.Integer cell_id; Sql.Text s] ∈ Sql.rows_of "StackedPoints" db.
Proof.
  unfold links_for_cell. rewrite elem_of_list_to_set, list_elem_of_omap. split.
  - intros (row & Hrow & Hs).
    destruct row as [|[|fid|] [|[| |s'] [|]]]; try discriminate.
    case_bool_decide; [|discriminate]. by simplify_eq.
  - intros Hrow. eexists; split; [done|]. cbn. by rewrite bool_decide_eq_true_2.
Qed.

(** The links of a flattened polygon are the stop_ids, other than the
    empty one, of the service areas that cover its point. *)
Lemma links_of_flattened polygons (db : Sql.database) f (s : string) :
  db !! "StackedPoints" = Some (StackedPoints_table gp E polygons) ->
  f ∈ rows (FlatPolys_flattened gp E polygons) ->
  s ∈ links_for_cell db (OID f) <->
  s <> "" /\ exists b, b ∈ covering gp polygons f /\ stop_id b = s.
Proof.
  intros Hdb Hf. rewrite elem_of_links_for_cell. unfold Sql.rows_of. rewrite Hdb.
  rewrite elem_of_StackedPoints_table, elem_of_StackedPtCursor. split.
  - intros [(f' & Hf' & Hoid & Hv) Hs]. split; [done|].
    assert (f' = f) as -> by eauto using FlatPolys_flattened_OID_inj.
    destruct Hv as [[_ [=]]|(b & Hb & [= ->])]. eauto.
  - intros [Hs (b & Hb & <-)]. split; [|done]. exists f. eauto 10.
Qed.

Lemma FIDsToDelete_flattened polygons f :
  f ∈ rows (FlatPolys_flattened gp E polygons) ->
  OID f ∈ FIDsToDelete gp E polygons <->
  covering gp polygons f = [] \/ exists b, b ∈ covering gp polygons f /\ stop_id b = "".
Proof.
  intros Hf. rewrite elem_of_FIDsToDelete. split.
  - intros (v & (f' & Hf' & Hoid & Hv)%elem_of_StackedPtCursor & Hfalsy).
    assert (f' = f) as -> by eauto using FlatPolys_flattened_OID_inj.
    destruct Hv as [[? _]|(b & Hb & ->)]; [by left|right].
    exists b. split; [done|]. cbn in Hfalsy. by apply bool_decide_eq_true in Hfalsy.
  - intros [Hnone|(b & Hb & Hempty)].
    + exists None. split; [|done]. apply elem_of_StackedPtCursor. exists f. eauto.
    + exists (Some (stop_id b)). split.
      * apply elem_of_StackedPtCursor. exists f. eauto 10.
      * cbn. by apply bool_decide_eq_true.
Qed.

Lemma elem_of_FlatPolys_final polygons f' :
  f' ∈ rows (FlatPolys_final gp E polygons) <->
  exists f, f ∈ rows (FlatPolys_flattened gp E polygons) /\ f' = with_PolyID f /\
    PrimFloat.eqb (Shape_Area f) 0 = false /\ OID f ∉ FIDsToDelete gp E polygons.
Proof.
  unfold FlatPolys_final. rewrite cleanup_rows by done.
  rewrite list_elem_of_In, in_map_iff. split.
  - intros (f & <- & Hin).
    apply list_elem_of_In, list_elem_of_filter in Hin as [Hkeep Hin].
    apply orb_false_iff in Hkeep as [Harea Hfid]. apply bool_decide_eq_false in Hfid.
    by exists f.
  - intros (f & Hin & -> & Harea & Hfid). exists f. split; [done|].
    apply list_elem_of_In, list_elem_of_filter. split; [|done].
    apply orb_false_iff. split; [done|]. by apply bool_decide_eq_false.
Qed.

Lemma PolyID_with_PolyID f : PolyID (with_PolyID f) = Some (OID f).
Proof. unfold PolyID, with_PolyID. cbn. by rewrite lookup_insert_eq. Qed.

Lemma filter_all_of_length {A} (P : A -> Prop) `{!forall x, Decision (P x)} (l : list A) :
  length (filter P l) = length l -> filter P l = l.
Proof.
  induction l as [|x l IH]; [done|]. rewrite filter_cons. case_decide; cbn.
  - intros [=]. f_equal. auto.
  - intros Hlen. pose proof (length_filter P l). lia.
Qed.

Lemma filter_all_of_Forall {A} (P : A -> Prop) `{!forall x, Decision (P x)} (l : list A) :
  (forall x, x ∈ l -> P x) -> filter P l = l.
Proof.
  intros Hall. apply filter_all_of_length. induction l as [|x l IH]; [done|].
  rewrite filter_cons, decide_True by (apply Hall; left). cbn. f_equal.
  apply IH. intros y Hy. apply Hall. by right.
Qed.

Lemma with_PolyID_idemp f : with_PolyID (with_PolyID f) = with_PolyID f.
Proof. unfold with_PolyID. cbn. by rewrite insert_insert_eq. Qed.

Lemma with_PolyID_OIDs (l : list (Feature Geometry)) :
  map OID (map with_PolyID l) = map OID l.
Proof. rewrite map_map. by apply map_ext. Qed.

Lemma FlatPolys_final_rows polygons :
  rows (FlatPolys_final gp E polygons) =
  map with_PolyID
    (filter
       (fun f => PrimFloat.eqb (Shape_Area f) 0
                 || bool_decide (OID f ∈ FIDsToDelete gp E polygons) = false)
       (rows (FlatPolys_flattened gp E polygons))).
Proof. unfold FlatPolys_final. by rewrite cleanup_rows. Qed.

(** C1.  For every polygon of the final Step1_FlatPolys, the stop_ids the
    table StackedPoints links to its PolyID are exactly the stop_ids of the
    service areas that contain the point stacked for it; so when these
    service areas are exactly those of two stops A and B, the links are
    {A, B}. *)
Theorem links_are_the_covering_stops polygons (db : Sql.database) f :
  db !! "StackedPoints" = Some (StackedPoints_table gp E polygons) ->
  f ∈ rows (FlatPolys_final gp E polygons) ->
  exists cell_id, PolyID f = Some cell_id /\
    links_for_cell db cell_id = list_to_set (map stop_id (covering gp polygons f)) /\
    forall A B : string,
      (forall s, s ∈ map stop_id (covering gp polygons f) <-> s = A \/ s = B) ->
      links_for_cell db cell_id = {[A; B]}.
Proof.
  intros Hdb (f0 & Hf0 & -> & Harea & Hfid)%elem_of_FlatPolys_final.
  exists (OID f0). split; [apply PolyID_with_PolyID|].
  change (covering gp polygons (with_PolyID f0)) with (covering gp polygons f0).
  assert (Hlinks : links_for_cell db (OID f0)
                   = list_to_set (map stop_id (covering gp polygons f0))).
  { apply set_eq. intros s.
    rewrite links_of_flattened, elem_of_list_to_set, list_elem_of_In, in_map_iff by done.
    setoid_rewrite <- list_elem_of_In. split.
    - intros [_ (b & Hb & <-)]. eauto.
    - intros (b & <- & Hb). split; [|eauto].
      intros Hempty. apply Hfid, FIDsToDelete_flattened; eauto. }
  split; [done|]. intros A B HAB. rewrite Hlinks. apply set_eq. intros s.
  rewrite elem_of_list_to_set, HAB, elem_of_union, !elem_of_singleton. done.
Qed.

(** C3.  In the final Step1_FlatPolys no polygon has Shape_Area 0 and
    every polygon has a link in StackedPoints; a flattened polygon of area
    0, or without any link, is not in the final Step1_FlatPolys. *)
Theorem final_cells_have_area_and_links polygons (db : Sql.database) :
  db !! "StackedPoints" = Some (StackedPoints_table gp E polygons) ->
  (forall f, f ∈ rows (FlatPolys_final gp E polygons) ->
     PrimFloat.eqb (Shape_Area f) 0 = false /\
     exists cell_id, PolyID f = Some cell_id /\ links_for_cell db cell_id <> ∅) /\
  (forall f, f ∈ rows (FlatPolys_flattened gp E polygons) ->
     PrimFloat.eqb (Shape_Area f) 0 = true \/ links_for_cell db (OID f) = ∅ ->
     forall f', f' ∈ rows (FlatPolys_final gp E polygons) -> OID f' <> OID f).
Proof.
  intros Hdb. split.
  - intros f (f0 & Hf0 & -> & Harea & Hfid)%elem_of_FlatPolys_final.
    split; [done|]. exists (OID f0). split; [apply PolyID_with_PolyID|].
    destruct (covering gp polygons f0) as [|b bs] eqn:Hcov.
    { destruct Hfid. apply FIDsToDelete_flattened; auto. }
    assert (Hb : b ∈ covering gp polygons f0) by (rewrite Hcov; left).
    assert (stop_id b ∈ links_for_cell db (OID f0)); [|set_solver].
    rewrite links_of_flattened by done. split; [|eauto].
    intros Hempty. apply Hfid, FIDsToDelete_flattened; eauto.
  - intros f Hf Hbad f' (f0 & Hf0 & -> & Harea & Hfid)%elem_of_FlatPolys_final Hoid.
    cbn in Hoid. assert (f0 = f) as -> by eauto using FlatPolys_flattened_OID_inj.
    destruct Hbad as [Hzero|Hnone]; [congruence|].
    destruct (covering gp polygons f) as [|b bs] eqn:Hcov.
    { apply Hfid, FIDsToDelete_flattened; auto. }
    assert (Hb : b ∈ covering gp polygons f) by (rewrite Hcov; left).
    destruct (decide (stop_id b = "")) as [Hempty|Hs].
    { apply Hfid, FIDsToDelete_flattened; eauto. }
    assert (stop_id b ∈ links_for_cell db (OID f)); [|set_solver].
    rewrite links_of_flattened by done. eauto.
Qed.

(** C4, amended.  Nothing is ever deleted from StackedPoints.  A row is
    written only for a stacked point that carries a stop_id: every row
    references a flattened polygon and names a stop whose service area
    covers the polygon's point, and that polygon is in the final
    Step1_FlatPolys exactly when its area is not 0 and no service area
    covering its point has an empty stop_id.  A polygon none of whose
    stacked points carries a stop_id has no row at all. *)
Theorem links_reference_flattened_cells polygons :
  (forall (fid : Z) (s : string),
     [Sql.Integer fid; Sql.Text s] ∈ Sql.tbl_rows (StackedPoints_table gp E polygons) ->
     exists f, f ∈ rows (FlatPolys_flattened gp E polygons) /\ OID f = fid /\
       s <> "" /\ (exists b, b ∈ covering gp polygons f /\ stop_id b = s) /\
       ((exists f', f' ∈ rows (FlatPolys_final gp E polygons) /\ PolyID f' = Some fid) <->
        PrimFloat.eqb (Shape_Area f) 0 = false /\
        forall b, b ∈ covering gp polygons f -> stop_id b <> "")) /\
  (forall f, f ∈ rows (FlatPolys_flattened gp E polygons) ->
     (forall b, b ∈ covering gp polygons f -> stop_id b = "") ->
     forall s : string,
       [Sql.Integer (OID f); Sql.Text s]
         ∉ Sql.tbl_rows (StackedPoints_table gp E polygons)).
Proof.
  split.
  - intros fid s [(f & Hf & <- & Hv)%elem_of_StackedPtCursor Hs]%elem_of_StackedPoints_table.
    destruct Hv as [[_ [=]]|(b & Hb & [= ->])].
    exists f. split; [done|]. split; [done|]. split; [done|]. split; [eauto|].
    split; [intros Hfinal; split; revert Hfinal|].
    + intros (f' & (f0 & Hf0 & -> & Harea & Hfid)%elem_of_FlatPolys_final & Hid).
      rewrite PolyID_with_PolyID in Hid. injection Hid as Hoid.
      assert (f0 = f) as -> by eauto using FlatPolys_flattened_OID_inj.
      done.
    + intros (f' & (f0 & Hf0 & -> & Harea & Hfid)%elem_of_FlatPolys_final & Hid).
      rewrite PolyID_with_PolyID in Hid. injection Hid as Hoid.
      assert (f0 = f) as -> by eauto using FlatPolys_flattened_OID_inj.
      intros b' Hb' Hempty. apply Hfid, FIDsToDelete_flattened; eauto.
    + intros [Harea Hstops]. exists (with_PolyID f).
      split; [|apply PolyID_with_PolyID].
      apply elem_of_FlatPolys_final. exists f. repeat split; [done..|].
      intros [Hnone|(b' & Hb' & Hempty)]%FIDsToDelete_flattened; [|naive_solver..].
      rewrite Hnone in Hb. by apply elem_of_nil in Hb.
  - intros f Hf Hall s
      [(f' & Hf' & Hoid & Hv)%elem_of_StackedPtCursor Hs]%elem_of_StackedPoints_table.
    assert (f' = f) as -> by eauto using FlatPolys_flattened_OID_inj.
    destruct Hv as [[_ [=]]|(b & Hb & [= ->])]. by apply Hs, Hall.
Qed.

(** Along a list with object ids m, m+1, ..., the rows kept by a filter
    have the ids m, m+1, ... as well exactly when every row left out comes
    after every row kept. *)
Lemma filter_OIDs_dense (keep : Feature Geometry -> Prop)
    `{!forall f, Decision (keep f)} (l : list (Feature Geometry)) (m : Z) :
  map OID l = seqZ m (Z.of_nat (length l)) ->
  map OID (filter keep l) = seqZ m (Z.of_nat (length (filter keep l))) <->
  forall f, f ∈ l -> ~ keep f -> forall f', f' ∈ filter keep l -> OID f' < OID f.
Proof.
  revert m. induction l as [|f0 l IH]; intros m Hids; [by split; [intros _ f ?%elem_of_nil|]|].
  cbn [map length] in Hids. rewrite Nat2Z.inj_succ, (seqZ_cons m) in Hids by lia.
  rewrite Z.pred_succ in Hids. injection Hids as Hm Hids.
  assert (Hlater : forall f, f ∈ l -> m < OID f).
  { intros f Hf. assert (Hin : OID f ∈ map OID l)
      by (apply list_elem_of_In, in_map; by apply list_elem_of_In).
    rewrite Hids in Hin. apply elem_of_seqZ in Hin. lia. }
  rewrite filter_cons. destruct (decide (keep f0)) as [Hkeep|Hkeep].
  - cbn [map length]. rewrite Nat2Z.inj_succ, (seqZ_cons m) by lia.
    rewrite Z.pred_succ, Hm. split.
    + intros [= Heq]. pose proof (proj1 (IH _ Hids) Heq) as Hrec.
      intros f [->|Hf]%elem_of_cons Hf'; [done|].
      intros f' [->|Hin]%elem_of_cons; [rewrite Hm; auto|by apply (Hrec f)].
    + intros Hall. f_equal. apply (proj2 (IH _ Hids)).
      intros f Hf Hnot f' Hin. apply (Hall f); [by right|done|by right].
  - destruct (filter keep l) as [|f1 l1] eqn:Hfilter.
    + split; [|done]. intros _ f _ _ f' Hin. by apply elem_of_nil in Hin.
    + assert (Hf1 : m < OID f1).
      { apply Hlater. eapply list_elem_of_filter. rewrite Hfilter. left. }
      split.
      * cbn [map length]. rewrite Nat2Z.inj_succ, (seqZ_cons m) by lia.
        intros [= Heq _]. lia.
      * intros Hall. specialize (Hall f0 (ltac:(left)) Hkeep f1 (ltac:(left))). lia.
Qed.

(** C5, amended.  The PolyID of a polygon of the final Step1_FlatPolys is
    its object id, the one it was given when it was flattened; the rows of
    StackedPoints whose Polygon_FID is that PolyID are those of the service
    areas covering the polygon's point.  The ids are unique and increase
    along the feature class, within 1..N for N flattened polygons; they are
    not renumbered after the deletion.  So the PolyIDs are the positions
    1, 2, 3, ... exactly when every flattened polygon that was deleted has
    an object id above those of all the polygons left, as when none was
    deleted. *)
Theorem PolyID_is_OID polygons :
  let final := rows (FlatPolys_final gp E polygons) in
  let flattened := rows (FlatPolys_flattened gp E polygons) in
  map PolyID final = map (fun f => Some (OID f)) final /\
  (forall f', f' ∈ final ->
     exists f, f ∈ flattened /\ OID f = OID f' /\ Shape f = Shape f') /\
  (forall f' (fid : Z) (s : string), f' ∈ final -> PolyID f' = Some fid ->
     [Sql.Integer fid; Sql.Text s] ∈ Sql.tbl_rows (StackedPoints_table gp E polygons) <->
     exists b, b ∈ covering gp polygons f' /\ stop_id b = s) /\
  map OID final `sublist_of` seqZ 1 (Z.of_nat (length flattened)) /\
  NoDup (map OID final) /\
  (length final = length flattened ->
   map OID final = seqZ 1 (Z.of_nat (length final))) /\
  (PolyID_is_position gp E polygons <->
   forall f, f ∈ flattened -> (forall f', f' ∈ final -> OID f' <> OID f) ->
     forall f', f' ∈ final -> OID f' < OID f).
Proof.
  cbn zeta. unfold PolyID_is_position.
  split; [|split; [|split; [|split; [|split; [|split]]]]].
  7:{ rewrite FlatPolys_final_rows.
      set (keep := fun f : Feature Geometry =>
        PrimFloat.eqb (Shape_Area f) 0 || bool_decide (OID f ∈ FIDsToDelete gp E polygons)
        = false).
      set (l := rows (FlatPolys_flattened gp E polygons)).
      assert (Hids : map PolyID (map with_PolyID (filter keep l))
                     = map Some (map OID (filter keep l))).
      { rewrite !map_map. apply map_ext. intros f. exact (PolyID_with_PolyID f). }
      rewrite Hids, length_map.
      assert (Hinj : forall a b : list Z, map Some a = map Some b <-> a = b).
      { intros a b. split; [|by intros ->].
        revert b; induction a as [|x a IHa]; intros [|y b]; try done.
        cbn. intros [= -> Hab]. f_equal. auto. }
      rewrite Hinj, (filter_OIDs_dense keep l 1 (FlatPolys_flattened_OIDs polygons)).
      assert (Hsurvives : forall f, f ∈ l ->
                keep f <-> exists f', f' ∈ map with_PolyID (filter keep l) /\ OID f' = OID f).
      { intros f Hf. split.
        - intros Hkeep. exists (with_PolyID f). split; [|done].
          apply list_elem_of_In, in_map, list_elem_of_In, list_elem_of_filter. done.
        - intros (f' & (f0 & <- & [Hkeep Hf0]%list_elem_of_In%list_elem_of_filter)
                         %list_elem_of_In%in_map_iff & Hoid).
          cbn in Hoid.
          by rewrite <- (FlatPolys_flattened_OID_inj polygons f0 f Hf0 Hf Hoid). }
      split.
      - intros Hall f Hf Hnone f' (f0 & <- & Hf0%list_elem_of_In)%list_elem_of_In%in_map_iff.
        cbn. apply (Hall f); [done| |done].
        intros (f' & Hf' & Hoid)%Hsurvives; [|done]. by apply (Hnone f').
      - intros Hall f Hf Hnot f' Hf'.
        change (OID f') with (OID (with_PolyID f')).
        apply (Hall f Hf).
        + intros f1 Hf1 Hoid. apply Hnot, Hsurvives; eauto.
        + apply list_elem_of_In, in_map, list_elem_of_In. done. }
  3:{ intros f' fid s (f0 & Hf0 & -> & Harea & Hfid)%elem_of_FlatPolys_final Hid.
      rewrite PolyID_with_PolyID in Hid. injection Hid as <-.
      change (covering gp polygons (with_PolyID f0)) with (covering gp polygons f0).
      rewrite elem_of_StackedPoints_table, elem_of_StackedPtCursor. split.
      - intros [(f & Hf & Hoid & Hv) Hs].
        assert (f = f0) as -> by eauto using FlatPolys_flattened_OID_inj.
        destruct Hv as [[_ [=]]|(b & Hb & [= ->])]. eauto.
      - intros (b & Hb & <-). split.
        + exists f0. eauto 10.
        + intros Hempty. apply Hfid, FIDsToDelete_flattened; eauto. }
  all: rewrite FlatPolys_final_rows.
  all: set (keep := fun f : Feature Geometry =>
    PrimFloat.eqb (Shape_Area f) 0 || bool_decide (OID f ∈ FIDsToDelete gp E polygons)
    = false).
  - rewrite !map_map. apply map_ext. intros f. exact (PolyID_with_PolyID f).
  - intros f' (f & <- & Hin%list_elem_of_In%list_elem_of_filter)%list_elem_of_In%in_map_iff.
    exists f. by destruct Hin.
  - rewrite with_PolyID_OIDs, <- FlatPolys_flattened_OIDs.
    change (map OID ?l) with (OID <$> l). apply fmap_sublist, sublist_filter.
  - eapply sublist_NoDup; [apply NoDup_seqZ|].
    rewrite with_PolyID_OIDs, <- FlatPolys_flattened_OIDs.
    change (map OID ?l) with (OID <$> l). apply fmap_sublist, sublist_filter.
  - rewrite !length_map. intros Hlen.
    rewrite (filter_all_of_length keep _ Hlen), with_PolyID_OIDs.
    apply FlatPolys_flattened_OIDs.
Qed.

(** C8.  Cleaning up a feature class that is clean already (no polygon of
    area 0, no polygon to delete) keeps every polygon, in place and under
    its object id, and sets its PolyID to that object id; so when the
    PolyIDs come from an earlier clean-up, nothing changes at all. *)
Theorem cleanup_of_clean fc (fids : gset Z) :
  OIDFieldName fc = "OBJECTID" ->
  (forall f, f ∈ rows fc -> PrimFloat.eqb (Shape_Area f) 0 = false /\ OID f ∉ fids) ->
  rows (cleanup fc fids) = map with_PolyID (rows fc) /\
  map OID (rows (cleanup fc fids)) = map OID (rows fc) /\
  ((forall f, f ∈ rows fc -> PolyID f = Some (OID f)) ->
   map PolyID (rows (cleanup fc fids)) = map PolyID (rows fc)) /\
  (forall fc0 (fids0 : gset Z),
     OIDFieldName fc0 = "OBJECTID" -> fc = cleanup fc0 fids0 -> cleanup fc fids = fc).
Proof.
  intros Hname Hclean.
  assert (Hrows : rows (cleanup fc fids) = map with_PolyID (rows fc)).
  { rewrite cleanup_rows by done. f_equal.
    apply filter_all_of_Forall. intros f [Harea Hfid]%Hclean.
    by rewrite Harea, bool_decide_eq_false_2. }
  split; [done|]. rewrite Hrows. split; [apply with_PolyID_OIDs|]. split.
  - intros Hids. rewrite map_map. apply map_ext_in. intros f Hf%list_elem_of_In.
    by rewrite PolyID_with_PolyID, Hids.
  - intros fc0 fids0 Hname0 Hfc.
    assert (Hfix : map with_PolyID (rows fc) = rows fc).
    { rewrite Hfc, cleanup_rows, map_map by done.
      apply map_ext. intros f. apply with_PolyID_idemp. }
    destruct fc as [name flds rws]. unfold cleanup, CalculateField, DeleteFeatures.
    cbn [OIDFieldName fields rows] in *. f_equal.
    fold (DeleteFeatures {| OIDFieldName := name; fields := flds; rows := rws |}
            (WhereClause name fids)).
    change (rows (cleanup {| OIDFieldName := name; fields := flds; rows := rws |} fids)
            = rws).
    by rewrite Hrows.
Qed.

End Kernel.

(** ** The run, stage by stage *)

Lemma create_after_drop (name schema : string) (db : Sql.database) :
  Sql.create_table name schema (Sql.drop_table_if_exists name db) =
  Some (<[name := {| Sql.tbl_schema := schema; Sql.tbl_rows := [] |}]> db).
Proof.
  unfold Sql.create_table, Sql.drop_table_if_exists.
  by rewrite lookup_delete_eq, insert_delete_eq.
Qed.

Lemma insert_after_create (name schema : string) (items : list (list Sql.value))
    (db : Sql.database) :
  Sql.insert_many name items
    (<[name := {| Sql.tbl_schema := schema; Sql.tbl_rows := [] |}]> db) =
  Some (<[name := {| Sql.tbl_schema := schema; Sql.tbl_rows := items |}]> db).
Proof.
  unfold Sql.insert_many. by rewrite lookup_insert_eq, insert_insert_eq.
Qed.

(** Unfolding one step of a computation. *)
Ltac run_step :=
  cbv beta iota zeta delta
    [bind ret raise gets modify try_except reraise_with call AddMessage AddError
     CreateFileGDB copyfile connect execute read_dataset write_dataset update_dataset
     SetParameterAsText
     files datasets geodatabases overwriteOutput outputCoordinateSystem messages
     parameters calls
     set_files set_datasets set_geodatabases set_overwriteOutput
     set_outputCoordinateSystem
     set_messages set_parameters set_calls fst snd].

Ltac run_stuck :=
  match goal with
  | |- context [match read_StackedPoints ?cursor with _ => _ end] =>
      let H := fresh "Hread" in
      destruct (read_StackedPoints cursor) as [? ?] eqn:H
  | |- context [Sql.create_table ?n ?s (Sql.drop_table_if_exists ?n ?db)] =>
      rewrite (create_after_drop n s db)
  | |- context [Sql.insert_many ?n ?items (<[?n := _]> ?db)] =>
      rewrite insert_after_create
  | |- context [match bool_decide ?P with _ => _ end] =>
      let H := fresh "Hdec" in destruct (bool_decide_reflect P) as [H|H]
  | |- context [match <[?k := ?v]> ?m !! ?k with _ => _ end] =>
      rewrite (lookup_insert_eq m k v)
  | |- context [match ?m !! ?k with _ => _ end] =>
      let H := fresh "Hlookup" in destruct (m !! k) eqn:H
  | |- context [match fault ?E ?cs with _ => _ end] =>
      let H := fresh "Hfault" in destruct (fault E cs) eqn:H
  end; run_step.

Ltac calls_prefix :=
  repeat rewrite <- List.app_assoc; cbn [app];
  eexists; split; [reflexivity|];
  eexists; reflexivity.

Ltac post_raise :=
  split;
  [first [left; eexists; split; [|eassumption]; apply list_elem_of_In;
          unfold post_process_calls; cbn [In]; repeat first [left; reflexivity|right]
         |right; done]
  |split;
   [intros; by rewrite ?lookup_insert_ne by congruence
   |split; [by rewrite <- ?List.app_assoc|calls_prefix]]].

Ltac in_list :=
  apply list_elem_of_In; cbn [In]; repeat first [left; reflexivity|right].

Ltac run_any :=
  first
    [ match goal with
      | |- context [match CleanUpTrimSettings ?E ?x with _ => _ end] =>
          destruct (CleanUpTrimSettings E x) as [? ?]
      | |- context [match MakeStopsFeatureClass ?E ?x ?y with _ => _ end] =>
          destruct (MakeStopsFeatureClass E x y) as [? ?]
      | |- context [match Py.is_CustomError ?e with _ => _ end] =>
          destruct (Py.is_CustomError e)
      end; run_step
    | run_stuck ].

(** The calls recorded since [base], but for the last one. *)
Ltac made_calls t base :=
  lazymatch t with
  | base => constr:(@nil CallSite)
  | ?x ++ [?c] => let l := made_calls x base in constr:(l ++ [c])
  end.

Ltac failing_call :=
  lazymatch goal with
  | |- exists cs0 l, ?x ++ [?c] = ?base ++ l ++ [cs0] /\ _ =>
      let l := made_calls x base in
      let l' := eval cbn [app] in l in
      exists c, l'
  end.

#[global] Instance CallSite_eq_dec : EqDecision CallSite.
Proof. solve_decision. Defined.

Lemma runTool_calls_NoDup : NoDup runTool_calls.
Proof. apply (bool_decide_unpack (NoDup runTool_calls)). by vm_compute. Qed.

Section Stages.

Context {Geometry Point SpatialReference Layer : Type}.
Variable gp : Geoprocessor Geometry Point SpatialReference.
Variable E : Collaborators Geometry SpatialReference Layer.

Abbreviation World' := (World Geometry SpatialReference).

Lemma setup_spec (outDir outGDB inSQLDbase imp TrimSettings : string) (w : World') :
  match setup E outDir outGDB inSQLDbase imp TrimSettings w with
  | (Ret locals, w') =>
      (forall cs, cs ∈ setup_calls -> fault E cs = None) /\
      locals = (outGDBwPath_of E outDir outGDB, SQLDbase_of E outDir outGDB,
                CleanUpImpedance E imp,
                (CleanUpTrimSettings E TrimSettings).1,
                (CleanUpTrimSettings E TrimSettings).2) /\
      inSQLDbase <> SQLDbase_of E outDir outGDB /\
      (exists db, files w !! inSQLDbase = Some db /\
                  files w' = <[SQLDbase_of E outDir outGDB := db]> (files w)) /\
      datasets w' = datasets w /\
      messages w' = messages w /\
      calls w' = calls w ++ setup_calls
  | (Raise e, w') =>
      ((exists cs, cs ∈ setup_calls /\ fault E cs = Some e) \/
       inSQLDbase = SQLDbase_of E outDir outGDB \/ files w !! inSQLDbase = None) /\
      files w' !! inSQLDbase = files w !! inSQLDbase /\
      messages w' = messages w ++ [(Error, stage_error Setup)] /\
      exists l, calls w' = calls w ++ l /\ l `prefix_of` setup_calls
  end.
Proof.
  destruct w as [fs ds gdbs ow ocs ms ps cs].
  unfold setup. run_step.
  repeat (run_stuck;
          try (split;
               [first [left; eexists; split; [|eassumption]; apply list_elem_of_In;
                       unfold setup_calls; cbn [In]; repeat first [left; reflexivity|right]
                      |right; left; done
                      |right; right; done]
               |split; [first [done|by rewrite lookup_insert_ne]
                       |split; [done|calls_prefix]]])).
  destruct (CleanUpTrimSettings E TrimSettings) as [TrimPolys TrimPolysValue].
  run_step. split.
  { intros c Hin%list_elem_of_In. unfold setup_calls in Hin. cbn [In] in Hin.
    repeat destruct Hin as [<-|Hin]; done. }
  repeat split; eauto.
  by rewrite <- !List.app_assoc.
Qed.

Lemma make_stops_spec (outGDBwPath conn : string) (w : World') :
  match make_stops E outGDBwPath conn w with
  | (Ret stops, w') =>
      fault E cs_MakeStopsFeatureClass = None /\
      stops = MakeStopsFeatureClass E (os_path_join E outGDBwPath "Step1_Stops")
                (default ∅ (files w !! conn)) /\
      files w' = files w /\ datasets w' = datasets w /\
      messages w' = messages w ++ [(Info, "Creating a feature class of GTFS stops...")] /\
      calls w' = calls w ++ [cs_MakeStopsFeatureClass]
  | (Raise e, w') =>
      fault E cs_MakeStopsFeatureClass = Some e /\
      files w' = files w /\
      messages w' = messages w ++ [(Info, "Creating a feature class of GTFS stops...");
                                   (Error, stage_error Stops)] /\
      calls w' = calls w ++ [cs_MakeStopsFeatureClass]
  end.
Proof.
  destruct w as [fs ds gdbs ow ocs ms ps cs].
  unfold make_stops. run_step. run_stuck; by rewrite <- ?List.app_assoc.
Qed.

Lemma make_service_areas_spec (StopsLayer : Layer)
    (inNetworkDataset impedanceAttribute BufferSize restrictions TrimPolys
       TrimPolysValue : string) (w : World') :
  match make_service_areas E StopsLayer inNetworkDataset impedanceAttribute BufferSize
          restrictions TrimPolys TrimPolysValue w with
  | (Ret polygons, w') =>
      fault E cs_MakeServiceAreasAroundStops = None /\
      polygons = MakeServiceAreasAroundStops E StopsLayer inNetworkDataset
                   impedanceAttribute BufferSize restrictions TrimPolys TrimPolysValue /\
      files w' = files w /\ datasets w' = datasets w /\
      messages w' = messages w ++ [(Info, "Creating service areas around stops...");
                                   (Info, "(This step will take a while for large networks.)")] /\
      calls w' = calls w ++ [cs_MakeServiceAreasAroundStops]
  | (Raise e, w') =>
      fault E cs_MakeServiceAreasAroundStops = Some e /\
      files w' = files w /\
      messages w' = messages w ++ [(Info, "Creating service areas around stops...");
                                   (Info, "(This step will take a while for large networks.)");
                                   (Error, stage_error ServiceAreas)] /\
      calls w' = calls w ++ [cs_MakeServiceAreasAroundStops]
  end.
Proof.
  destruct w as [fs ds gdbs ow ocs ms ps cs].
  unfold make_service_areas. run_step. run_stuck; by rewrite <- ?List.app_assoc.
Qed.

(** What the body of the post-processing does: when it returns, no call
    has raised, Step1_FlatPolys and StackedPoints hold the values computed
    above; when it raises, only the file of the connection may have
    changed. *)
Lemma post_process_body_spec (outGDBwPath conn : string)
    (polygons : list (BufferPolygon Geometry)) (w : World') :
  match post_process_body gp E outGDBwPath conn polygons w with
  | (Ret _, w') =>
      (forall cs, cs ∈ post_process_calls -> fault E cs = None) /\
      (exists db, files w !! conn = Some db /\
         files w' =
         <[conn := <["StackedPoints" := StackedPoints_table gp E polygons]> db]> (files w)) /\
      datasets w' =
        <[os_path_join E outGDBwPath "Step1_FlatPolys" := FlatPolys_final gp E polygons]>
          (datasets w) /\
      outputCoordinateSystem w' = Some (WorldCylindrical E) /\
      messages w' = messages w ++ post_process_infos /\
      calls w' = calls w ++ post_process_calls
  | (Raise e, w') =>
      ((exists cs, cs ∈ post_process_calls /\ fault E cs = Some e) \/
       files w !! conn = None) /\
      (forall path, path <> conn -> files w' !! path = files w !! path) /\
      messages w' = messages w ++ post_process_infos /\
      exists l, calls w' = calls w ++ l /\ l `prefix_of` post_process_calls
  end.
Proof.
  destruct w as [fs ds gdbs ow ocs ms ps cs].
  unfold post_process_body. run_step.
  repeat (run_stuck; try post_raise).
  change (read_StackedPoints (StackedPtCursor gp E polygons) = (l, l0)) in Hread.
  split.
  { intros cs0 Hin%list_elem_of_In. unfold post_process_calls in Hin. cbn [In] in Hin.
    repeat destruct Hin as [<-|Hin]; done. }
  split.
  { exists g. split; [done|]. rewrite !insert_insert_eq.
    unfold StackedPoints_table, AddToStackedPts. by rewrite Hread. }
  split.
  { rewrite !insert_insert_eq.
    unfold FlatPolys_final, cleanup, FIDsToDelete. by rewrite Hread. }
  split; [done|]. split; by rewrite <- !List.app_assoc.
Qed.

Lemma post_process_spec (outGDBwPath conn : string)
    (polygons : list (BufferPolygon Geometry)) (w : World') :
  match post_process gp E outGDBwPath conn polygons w with
  | (Ret _, w') =>
      (forall cs, cs ∈ post_process_calls -> fault E cs = None) /\
      (exists db, files w !! conn = Some db /\
         files w' =
         <[conn := <["StackedPoints" := StackedPoints_table gp E polygons]> db]> (files w)) /\
      datasets w' =
        <[os_path_join E outGDBwPath "Step1_FlatPolys" := FlatPolys_final gp E polygons]>
          (datasets w) /\
      outputCoordinateSystem w' = Some (WorldCylindrical E) /\
      messages w' = messages w ++ post_process_infos /\
      calls w' = calls w ++ post_process_calls
  | (Raise e, w') =>
      ((exists cs, cs ∈ post_process_calls /\ fault E cs = Some e) \/
       files w !! conn = None) /\
      (forall path, path <> conn -> files w' !! path = files w !! path) /\
      messages w' = messages w ++ post_process_infos ++ [(Error, stage_error PostProcessing)] /\
      exists l, calls w' = calls w ++ l /\ l `prefix_of` post_process_calls
  end.
Proof.
  pose proof (post_process_body_spec outGDBwPath conn polygons w) as Hbody.
  unfold post_process, reraise_with, try_except.
  destruct (post_process_body gp E outGDBwPath conn polygons w) as [[[]|e] w1]; [done|].
  destruct w1 as [fs ds gdbs ow ocs ms ps cs]. run_step. cbn in Hbody.
  destruct Hbody as (Hcause & Hframe & -> & Hcalls).
  by rewrite <- List.app_assoc.
Qed.

Lemma run_body_spec (outDir outGDB inSQLDbase inNetworkDataset imp BufferSize
    restrictions TrimSettings : string) (w : World') :
  match run_body gp E outDir outGDB inSQLDbase inNetworkDataset imp BufferSize
          restrictions TrimSettings w with
  | (Ret _, w') =>
      (forall cs, cs ∈ runTool_calls -> fault E cs = None) /\
      inSQLDbase <> SQLDbase_of E outDir outGDB /\
      (exists db, files w !! inSQLDbase = Some db /\
         let polygons := polygons_of E outDir outGDB inNetworkDataset imp BufferSize
                           restrictions TrimSettings db in
         files w' =
           <[SQLDbase_of E outDir outGDB :=
               <["StackedPoints" := StackedPoints_table gp E polygons]> db]> (files w) /\
         datasets w' =
           <[os_path_join E (outGDBwPath_of E outDir outGDB) "Step1_FlatPolys" :=
               FlatPolys_final gp E polygons]> (datasets w)) /\
      outputCoordinateSystem w' = Some (WorldCylindrical E) /\
      messages w' = messages w ++ run_infos (outGDBwPath_of E outDir outGDB) /\
      calls w' = calls w ++ runTool_calls
  | (Raise e, w') =>
      ((exists cs, cs ∈ runTool_calls /\ fault E cs = Some e) \/
       inSQLDbase = SQLDbase_of E outDir outGDB \/ files w !! inSQLDbase = None) /\
      files w' !! inSQLDbase = files w !! inSQLDbase /\
      ((exists st infos,
          messages w' = messages w ++ infos ++ [(Error, stage_error st)] /\
          infos_only infos) \/
       (exists n infos,
          fault E (cs_SetParameterAsText n) = Some e /\
          messages w' = messages w ++ infos /\ infos_only infos)) /\
      exists l, calls w' = calls w ++ l /\ l `prefix_of` runTool_calls
  end.
Proof.
  unfold run_body. cbv beta delta [bind].
  pose proof (setup_spec outDir outGDB inSQLDbase imp TrimSettings w) as Hsetup.
  destruct (setup E outDir outGDB inSQLDbase imp TrimSettings w) as [[locals|e] w1].
  2:{ destruct Hsetup as (Hcause & Hfile & Hmsg & l & Hcalls & Hpre).
      split; [|split; [done|split]].
      - destruct Hcause as [(cs & Hin & Hf)|Hcause]; [left|by right].
        exists cs. split; [|done]. unfold runTool_calls. rewrite !elem_of_app. auto.
      - left. exists Setup, []. by split; [|constructor].
      - exists l. split; [done|]. by apply prefix_app_r. }
  destruct Hsetup as (Hf1 & -> & Hne & (db & Hdb & Hfiles1) & Hds1 & Hmsg1 & Hcalls1).
  assert (Hconn1 : files w1 !! SQLDbase_of E outDir outGDB = Some db)
    by (by rewrite Hfiles1, lookup_insert_eq).
  assert (Hin1 : files w1 !! inSQLDbase = files w !! inSQLDbase)
    by (by rewrite Hfiles1, lookup_insert_ne).
  pose proof (make_stops_spec (outGDBwPath_of E outDir outGDB) (SQLDbase_of E outDir outGDB) w1)
    as Hstops.
  destruct (make_stops E (outGDBwPath_of E outDir outGDB) (SQLDbase_of E outDir outGDB) w1)
    as [[stops|e] w2].
  2:{ destruct Hstops as (Hf & Hfiles & Hmsg & Hcalls).
      split; [|split; [by rewrite Hfiles|split]].
      - left. exists cs_MakeStopsFeatureClass. split; [|done].
        unfold runTool_calls. rewrite !elem_of_app, !list_elem_of_singleton. auto.
      - left. exists Stops, [(Info, "Creating a feature class of GTFS stops...")].
        rewrite Hmsg, Hmsg1. split; [done|]. by repeat constructor.
      - exists (setup_calls ++ [cs_MakeStopsFeatureClass]).
        rewrite Hcalls, Hcalls1, <- List.app_assoc. split; [done|].
        apply prefix_app, prefix_app_r. done. }
  destruct Hstops as (Hf2 & -> & Hfiles2 & Hds2 & Hmsg2 & Hcalls2).
  rewrite Hconn1. cbn [default from_option id].
  destruct (MakeStopsFeatureClass E (os_path_join E (outGDBwPath_of E outDir outGDB) "Step1_Stops") db)
    as [StopsLayer StopIDList] eqn:Hmake.
  cbv beta iota.
  pose proof (make_service_areas_spec StopsLayer inNetworkDataset (CleanUpImpedance E imp)
                BufferSize restrictions (CleanUpTrimSettings E TrimSettings).1
                (CleanUpTrimSettings E TrimSettings).2 w2) as Hsa.
  destruct (make_service_areas E StopsLayer inNetworkDataset (CleanUpImpedance E imp)
              BufferSize restrictions (CleanUpTrimSettings E TrimSettings).1
              (CleanUpTrimSettings E TrimSettings).2 w2) as [[polygons|e] w3].
  2:{ destruct Hsa as (Hf & Hfiles & Hmsg & Hcalls).
      split; [|split; [by rewrite Hfiles, Hfiles2|split]].
      - left. exists cs_MakeServiceAreasAroundStops. split; [|done].
        unfold runTool_calls. rewrite !elem_of_app, !list_elem_of_singleton. auto.
      - left. exists ServiceAreas,
          [(Info, "Creating a feature class of GTFS stops...");
           (Info, "Creating service areas around stops...");
           (Info, "(This step will take a while for large networks.)")].
        rewrite Hmsg, Hmsg2, Hmsg1, <- !List.app_assoc.
        split; [done|]. by repeat constructor.
      - exists (setup_calls ++ [cs_MakeStopsFeatureClass] ++ [cs_MakeServiceAreasAroundStops]).
        rewrite Hcalls, Hcalls2, Hcalls1, <- !List.app_assoc. split; [done|].
        do 2 apply prefix_app. apply prefix_app_r. done. }
  destruct Hsa as (Hf3 & Hpolys & Hfiles3 & Hds3 & Hmsg3 & Hcalls3).
  assert (polygons = polygons_of E outDir outGDB inNetworkDataset imp BufferSize
                       restrictions TrimSettings db) as Hpolygons.
  { unfold polygons_of. by rewrite Hmake. }
  clear Hpolys.
  pose proof (post_process_spec (outGDBwPath_of E outDir outGDB) (SQLDbase_of E outDir outGDB)
                polygons w3) as Hpost.
  destruct (post_process gp E (outGDBwPath_of E outDir outGDB) (SQLDbase_of E outDir outGDB)
              polygons w3) as [[[]|e] w4].
  2:{ destruct Hpost as (Hcause & Hframe & Hmsg & l & Hcalls & Hpre).
      split; [|split; [|split]].
      - destruct Hcause as [(cs & Hin & Hf)|Hnone].
        + left. exists cs. split; [|done].
          unfold runTool_calls. rewrite !elem_of_app. auto.
        + rewrite Hfiles3, Hfiles2, Hconn1 in Hnone. discriminate.
      - rewrite Hframe by done. by rewrite Hfiles3, Hfiles2.
      - left. exists PostProcessing,
          ([(Info, "Creating a feature class of GTFS stops...");
            (Info, "Creating service areas around stops...");
            (Info, "(This step will take a while for large networks.)")]
           ++ post_process_infos).
        rewrite Hmsg, Hmsg3, Hmsg2, Hmsg1, <- !List.app_assoc.
        split; [done|]. by repeat constructor.
      - exists (setup_calls ++ [cs_MakeStopsFeatureClass]
                  ++ [cs_MakeServiceAreasAroundStops] ++ l).
        rewrite Hcalls, Hcalls3, Hcalls2, Hcalls1, <- !List.app_assoc. split; [done|].
        do 3 apply prefix_app. apply prefix_app_r. done. }
  destruct Hpost as (Hf4 & (db' & Hdb' & Hfiles4) & Hds4 & Hocs4 & Hmsg4 & Hcalls4).
  rewrite Hfiles3, Hfiles2, Hconn1 in Hdb'. injection Hdb' as <-.
  assert (Hmsgs : messages w4 =
                  messages w ++ [(Info, "Creating a feature class of GTFS stops...");
                    (Info, "Creating service areas around stops...");
                    (Info, "(This step will take a while for large networks.)");
                    (Info, "Reformatting polygons for further analysis...");
                    (Info, "(This step will take a while for large networks.)")]).
  { rewrite Hmsg4, Hmsg3, Hmsg2, Hmsg1. unfold post_process_infos.
    by rewrite <- !List.app_assoc. }
  assert (Hcalls : calls w4 =
                   calls w ++ setup_calls ++ [cs_MakeStopsFeatureClass]
                     ++ [cs_MakeServiceAreasAroundStops] ++ post_process_calls).
  { rewrite Hcalls4, Hcalls3, Hcalls2, Hcalls1. by rewrite <- !List.app_assoc. }
  assert (Hfiles : files w4 =
                   <[SQLDbase_of E outDir outGDB :=
                       <["StackedPoints" := StackedPoints_table gp E polygons]> db]>
                     (files w)).
  { by rewrite Hfiles4, Hfiles3, Hfiles2, Hfiles1, insert_insert_eq. }
  assert (Hds : datasets w4 =
                <[os_path_join E (outGDBwPath_of E outDir outGDB) "Step1_FlatPolys" :=
                    FlatPolys_final gp E polygons]> (datasets w1)).
  { by rewrite Hds4, Hds3, Hds2. }
  rewrite Hds1 in Hds.
  clear Hmsg4 Hmsg3 Hmsg2 Hcalls4 Hcalls3 Hcalls2 Hfiles4 Hfiles3 Hfiles2 Hds4 Hds3 Hds2.
  destruct w4 as [fs4 ds4 gdbs4 ow4 ocs4 ms4 ps4 cs4].
  cbn [files datasets outputCoordinateSystem messages calls] in *.
  subst fs4 ds4 ms4 cs4 ocs4.
  destruct w as [fs ds gdbs ow ocs ms ps cs].
  cbn [files datasets outputCoordinateSystem messages calls] in *.
  assert (Htail : forall n : nat, n = 8%nat \/ n = 9%nat \/ n = 10%nat ->
                  cs_SetParameterAsText n ∈ runTool_calls).
  { intros n Hn. unfold runTool_calls. rewrite !elem_of_app. do 4 right.
    apply list_elem_of_In. cbn [In]. destruct Hn as [-> | [-> | ->]]; auto. }
  run_step.
  repeat run_stuck.
  4:{ split.
      { intros c. unfold runTool_calls.
        rewrite !elem_of_app, !list_elem_of_singleton.
        intros [Hc|[->|[->|[Hc|Hc]]]]; [by apply Hf1|done|done|by apply Hf4|].
        apply list_elem_of_In in Hc. cbn [In] in Hc.
        destruct Hc as [<-|[<-|[<-|[]]]]; done. }
      split; [done|]. split.
      { exists db. split; [done|]. cbn zeta. by rewrite <- Hpolygons. }
      split; [done|]. split.
      - unfold run_infos. by rewrite <- !List.app_assoc.
      - unfold runTool_calls. by rewrite <- !List.app_assoc. }
  all: split; [left; eexists; split; [apply Htail|eassumption]; auto|].
  all: split; [by rewrite lookup_insert_ne|].
  all: split; [right; eexists _, _; split; [eassumption|];
               split; [by rewrite <- !List.app_assoc|by repeat constructor]|].
  all: eexists; split; [by rewrite <- !List.app_assoc|].
  all: unfold runTool_calls; do 4 apply prefix_app; cbn [app].
  all: eexists; reflexivity.
Qed.

(** A run that raises: the last call made is the one that raises, no call
    before it has raised, and the messages are the informative ones up to
    that call followed by the error message of its stage. *)
Lemma run_body_failure (outDir outGDB inSQLDbase inNetworkDataset imp BufferSize
    restrictions TrimSettings : string) (w : World Geometry SpatialReference) :
  match run_body gp E outDir outGDB inSQLDbase inNetworkDataset imp BufferSize
          restrictions TrimSettings w with
  | (Ret _, _) => True
  | (Raise e, w1) =>
      exists cs l,
        calls w1 = calls w ++ l ++ [cs] /\
        (l ++ [cs]) `prefix_of` runTool_calls /\
        (forall c, c ∈ l -> fault E c = None) /\
        raises E inSQLDbase (SQLDbase_of E outDir outGDB) w cs e /\
        messages w1 = messages w ++ infos_until (outGDBwPath_of E outDir outGDB) (stage_of cs)
                        ++ stage_report (stage_of cs)
  end.
Proof.
  destruct w as [fs ds gdbs ow ocs ms ps cs].
  unfold run_body, setup, make_stops, make_service_areas, post_process,
    post_process_body, raises.
  run_step.
  change (os_path_join E
            (os_path_join E outDir
               (if negb (Py.endswith (Py.lower outGDB) ".gdb")
                then outGDB +:+ ".gdb" else outGDB)) "Step1_GTFS.sql")
    with (SQLDbase_of E outDir outGDB).
  change (os_path_join E outDir
            (if negb (Py.endswith (Py.lower outGDB) ".gdb")
             then outGDB +:+ ".gdb" else outGDB))
    with (outGDBwPath_of E outDir outGDB).
  repeat (run_any; cbn [default from_option id]).
  all: try exact I.
  all: failing_call.
  all: split; [by rewrite <- ?List.app_assoc|].
  all: split; [unfold runTool_calls, setup_calls, post_process_calls; cbn [app];
               eexists; reflexivity|].
  all: split; [intros c0 Hin; apply list_elem_of_In in Hin; cbn [In] in Hin;
               repeat destruct Hin as [<-|Hin]; first [assumption|done]|].
  all: split;
    [first
       [ left; assumption
       | right; split; [reflexivity|]; split; [assumption|];
         first [ left; split; reflexivity
               | right; split; [discriminate|]; split; [assumption|reflexivity] ] ]|].
  all: by rewrite <- ?List.app_assoc.
Qed.

(** C10.  Whatever the run does and however it ends, the file inSQLDbase
    holds afterwards what it held before. *)
Theorem input_database_unchanged (outDir outGDB inSQLDbase inNetworkDataset imp
    BufferSize restrictions TrimSettings : string) (w : World') :
  files (runTool gp E outDir outGDB inSQLDbase inNetworkDataset imp BufferSize
           restrictions TrimSettings w).2 !! inSQLDbase
  = files w !! inSQLDbase.
Proof.
  pose proof (run_body_spec outDir outGDB inSQLDbase inNetworkDataset imp BufferSize
                restrictions TrimSettings w) as Hspec.
  unfold runTool, try_except.
  destruct (run_body gp E outDir outGDB inSQLDbase inNetworkDataset imp BufferSize
              restrictions TrimSettings w) as [[[]|e] w1].
  - destruct Hspec as (_ & Hne & (db & _ & Hfiles & _) & _). cbn [snd].
    by rewrite Hfiles, lookup_insert_ne.
  - destruct Hspec as (_ & Hfile & _).
    destruct w1 as [fs1 ds1 gdbs1 ow1 ocs1 ms1 ps1 cs1].
    destruct (Py.is_CustomError e); run_step; done.
Qed.

(** C7, amended.  A run that raises does so at one call: the calls before
    it were made in the order of the source and did not raise, no call is
    made after it, and the error is the one that call raises.  It is
    reported by the error message of the stage the call belongs to (none for
    SetParameterAsText, which comes after the stages) followed by "Failed
    to create BetterBusBuffers polygons.".  The error is then raised to the
    caller unless it is a BBB_SharedFunctions.CustomError: a CustomError is
    not raised again, the run returns after reporting it.  A run that gets
    to its end has had no call raise.  No call is made twice. *)
Theorem errors_are_reported (outDir outGDB inSQLDbase inNetworkDataset imp BufferSize
    restrictions TrimSettings : string) (w : World') :
  match run_body gp E outDir outGDB inSQLDbase inNetworkDataset imp BufferSize
          restrictions TrimSettings w with
  | (Ret _, w1) =>
      (forall cs, cs ∈ runTool_calls -> fault E cs = None) /\
      runTool gp E outDir outGDB inSQLDbase inNetworkDataset imp BufferSize
        restrictions TrimSettings w = (Ret tt, w1) /\
      messages w1 = messages w ++ run_infos (outGDBwPath_of E outDir outGDB)
  | (Raise e, w1) =>
      (exists cs l,
         calls w1 = calls w ++ l ++ [cs] /\
         (l ++ [cs]) `prefix_of` runTool_calls /\
         (forall c, c ∈ l -> fault E c = None) /\
         raises E inSQLDbase (SQLDbase_of E outDir outGDB) w cs e /\
         messages w1 =
           messages w ++ infos_until (outGDBwPath_of E outDir outGDB) (stage_of cs)
             ++ stage_report (stage_of cs)) /\
      runTool gp E outDir outGDB inSQLDbase inNetworkDataset imp BufferSize
        restrictions TrimSettings w
      = (if Py.is_CustomError e then Ret tt else Raise e,
         set_messages (messages w1 ++ [(Error, failed)]) w1)
  end /\
  exists l,
    calls (runTool gp E outDir outGDB inSQLDbase inNetworkDataset imp BufferSize
             restrictions TrimSettings w).2 = calls w ++ l /\
    l `prefix_of` runTool_calls /\ NoDup l.
Proof.
  pose proof (run_body_spec outDir outGDB inSQLDbase inNetworkDataset imp BufferSize
                restrictions TrimSettings w) as Hspec.
  pose proof (run_body_failure outDir outGDB inSQLDbase inNetworkDataset imp BufferSize
                restrictions TrimSettings w) as Hfail.
  unfold runTool, try_except.
  destruct (run_body gp E outDir outGDB inSQLDbase inNetworkDataset imp BufferSize
              restrictions TrimSettings w) as [[[]|e] w1].
  - destruct Hspec as (Hnofault & _ & _ & _ & Hmsg & Hcalls). split; [done|].
    exists runTool_calls. cbn [snd]. split; [done|]. split; [done|].
    apply runTool_calls_NoDup.
  - destruct Hspec as (_ & _ & _ & l & Hcalls & Hpre).
    destruct w1 as [fs1 ds1 gdbs1 ow1 ocs1 ms1 ps1 cs1].
    cbn [calls messages] in *. split.
    + split; [done|]. destruct (Py.is_CustomError e); run_step; done.
    + exists l. split; [destruct (Py.is_CustomError e); run_step; done|].
      split; [done|]. destruct Hpre as [k Hk].
      pose proof runTool_calls_NoDup as Hnd. rewrite Hk in Hnd.
      by apply NoDup_app in Hnd as [? _].
Qed.




End Stages.

(** ** The name of the geodatabase, the cursor loop, the where clause *)

Lemma lower_append (a b : string) : Py.lower (a +:+ b) = Py.lower a +:+ Py.lower b.
Proof.
  induction a as [|c a IH]; [done|].
  change (String c a +:+ b) with (String c (a +:+ b)).
  change (Py.lower (String c ?x)) with (String (Py.lower_ascii c) (Py.lower x)).
  rewrite IH. reflexivity.
Qed.

Lemma length_append (a b : string) :
  String.length (a +:+ b) = (String.length a + String.length b)%nat.
Proof.
  induction a as [|c a IH]; [done|].
  change (String.length (String c a +:+ b)) with (S (String.length (a +:+ b))).
  by rewrite IH.
Qed.

Lemma substring_all (b : string) : substring 0 (String.length b) b = b.
Proof. induction b as [|c b IH]; [done|]. cbn. f_equal. exact IH. Qed.

Lemma substring_append_r (a b : string) :
  substring (String.length a) (String.length b) (a +:+ b) = b.
Proof.
  induction a as [|c a IH]; [apply substring_all|].
  change (substring (String.length (String c a)) (String.length b) (String c a +:+ b))
    with (substring (String.length a) (String.length b) (a +:+ b)).
  apply IH.
Qed.

Lemma endswith_append (a b : string) : Py.endswith (a +:+ b) b = true.
Proof.
  unfold Py.endswith. rewrite length_append.
  replace (String.length b <=? String.length a + String.length b)%nat with true
    by (symmetry; apply Nat.leb_le; lia).
  replace (String.length a + String.length b - String.length b)%nat
    with (String.length a) by lia.
  rewrite substring_append_r. apply String.eqb_refl.
Qed.

Section Further.

Context {Geometry Point SpatialReference Layer : Type}.
Variable gp : Geoprocessor Geometry Point SpatialReference.
Variable E : Collaborators Geometry SpatialReference Layer.

(** X1.  The geodatabase of a run has a name that ends with ".gdb",
    whatever the case of the letters of the name given: a name that ends
    with ".gdb", ".GDB", ".Gdb", ... is kept as it is, any other name gets
    ".gdb" appended; doing so twice changes nothing more. *)
Theorem geodatabase_name_ends_with_gdb (outGDB : string) :
  (forall outDir, outGDBwPath_of E outDir outGDB = os_path_join E outDir (with_gdb outGDB)) /\
  Py.endswith (Py.lower (with_gdb outGDB)) ".gdb" = true /\
  (Py.endswith (Py.lower outGDB) ".gdb" = true -> with_gdb outGDB = outGDB) /\
  (Py.endswith (Py.lower outGDB) ".gdb" = false -> with_gdb outGDB = outGDB +:+ ".gdb") /\
  with_gdb (with_gdb outGDB) = with_gdb outGDB.
Proof.
  assert (Hends : Py.endswith (Py.lower (with_gdb outGDB)) ".gdb" = true).
  { unfold with_gdb. destruct (Py.endswith (Py.lower outGDB) ".gdb") eqn:Hsuffix; cbn [negb].
    - done.
    - rewrite lower_append. apply (endswith_append (Py.lower outGDB) ".gdb"). }
  split; [done|]. split; [done|]. split; [|split].
  - intros Hsuffix. unfold with_gdb. by rewrite Hsuffix.
  - intros Hsuffix. unfold with_gdb. by rewrite Hsuffix.
  - unfold with_gdb at 1. by rewrite Hends.
Qed.

(** X2.  The where clause of line 194-199 is usable whatever FIDsToDelete
    is: it has no empty IN list, the list being left out when there is no
    polygon id to delete; on a feature class of a file geodatabase it selects
    a polygon exactly when the polygon has area 0 or its object id is one of
    FIDsToDelete. *)
Theorem WhereClause_usable_and_exact (FIDs : gset Z) :
  (forall OutputOIDName, no_empty_IN (WhereClause OutputOIDName FIDs)) /\
  (forall (fc : FeatureClass Geometry) (f : Feature Geometry),
     OIDFieldName fc = "OBJECTID" ->
     selects fc (WhereClause (OIDFieldName fc) FIDs) f = true <->
     PrimFloat.eqb (Shape_Area f) 0 = true \/ OID f ∈ FIDs).
Proof.
  split.
  - intros name. unfold WhereClause. case_bool_decide as Hne; cbn; [|done].
    split; [done|]. intros Hnil. apply Hne. by apply leibniz_equiv, elements_empty_inv.
  - intros fc f Hname. rewrite (selects_WhereClause fc f FIDs Hname).
    rewrite orb_true_iff, bool_decide_eq_true. done.
Qed.

(** X3.  The loop over the stacked points (lines 169-176) sorts every row
    into exactly one of the two lists: a row without stop_id (None or the
    empty string) gives its polygon id to FIDsToDelete, any other row is kept
    for the table as it is and in order; so no parameter of the INSERT is
    NULL or an empty stop_id. *)
Theorem read_StackedPoints_sorts_every_row (cursor : list (Z * option string)) :
  let FIDsToDelete := (read_StackedPoints cursor).1 in
  let AddToStackedPts := (read_StackedPoints cursor).2 in
  (length FIDsToDelete + length AddToStackedPts = length cursor)%nat /\
  AddToStackedPts `sublist_of` cursor /\
  (forall fid, fid ∈ FIDsToDelete <->
     (fid, None) ∈ cursor \/ (fid, Some "") ∈ cursor) /\
  (forall fid v, (fid, v) ∈ AddToStackedPts <->
     (fid, v) ∈ cursor /\ exists s, v = Some s /\ s <> "") /\
  (forall item, item ∈ AddToStackedPts ->
     exists fid s, s <> "" /\ sql_parameters item = [Sql.Integer fid; Sql.Text s]).
Proof.
  cbn zeta. rewrite read_StackedPoints_eq. cbn [fst snd].
  assert (Htruthy : forall v : option string,
            Py.is_falsy v = false <-> exists s, v = Some s /\ s <> "").
  { intros [s|]; cbn.
    - rewrite bool_decide_eq_false. split; [eauto|].
      by intros (s0 & [= ->] & Hs0).
    - split; [discriminate|]. by intros (s0 & [=] & _). }
  assert (Hfalsy : forall v : option string,
            Py.is_falsy v = true <-> v = None \/ v = Some "").
  { intros [s|]; cbn.
    - rewrite bool_decide_eq_true. split; [intros ->; auto|].
      by intros [[=]|[= ->]].
    - split; auto. }
  split; [|split; [|split; [|split]]].
  - rewrite length_map. induction cursor as [|[fid v] cursor' IH]; [done|].
    rewrite !filter_cons. cbn [snd].
    destruct (Py.is_falsy v); repeat case_decide; try done; cbn [length]; lia.
  - apply sublist_filter.
  - intros fid. rewrite list_elem_of_In, in_map_iff. split.
    + intros ([fid' v] & <- & [Hv Hin]%list_elem_of_In%list_elem_of_filter).
      cbn in *. apply Hfalsy in Hv as [->| ->]; auto.
    + intros [Hin|Hin]; eexists; (split; [|apply list_elem_of_In, list_elem_of_filter;
        split; [|exact Hin]]); done.
  - intros fid v. rewrite list_elem_of_filter. cbn [snd]. rewrite Htruthy. tauto.
  - intros [fid v] [Hv _]%list_elem_of_filter. cbn [snd] in Hv.
    apply Htruthy in Hv as (s & -> & Hs). by exists fid, s.
Qed.

(** X5.  The final Step1_FlatPolys has the five fields added at lines
    138-142, in that order, after the fields of the geodatabase; of these
    only PolyID has a value, the object id, and the other four are left
    empty for Step 2; the geometry and the area of a polygon are those it
    was flattened with. *)
Theorem final_FlatPolys_fields (polygons : list (BufferPolygon Geometry)) :
  let fc := FlatPolys_final gp E polygons in
  OIDFieldName fc = "OBJECTID" /\
  fields fc = [("PolyID", "LONG"); ("NumTrips", "LONG"); ("NumTripsPerHr", "DOUBLE");
               ("NumStopsInRange", "LONG"); ("MaxWaitTime", "DOUBLE")] /\
  forall f, f ∈ rows fc ->
    attrs f = {["PolyID" := VLong (OID f)]} /\
    field_value fc f "NumTrips" = None /\
    field_value fc f "NumTripsPerHr" = None /\
    field_value fc f "NumStopsInRange" = None /\
    field_value fc f "MaxWaitTime" = None /\
    Shape_Area f = gp_area gp (Shape f).
Proof.
  cbn zeta. split; [done|]. split; [done|].
  intros f' (f & Hf & -> & _)%elem_of_FlatPolys_final.
  rewrite FlatPolys_flattened_rows in Hf.
  apply new_rows_Shape_Area in Hf as [Harea Hattrs].
  assert (Hmap : attrs (with_PolyID f) = {["PolyID" := VLong (OID f)]}).
  { unfold with_PolyID. cbn. by rewrite Hattrs, insert_empty. }
  split; [done|].
  unfold field_value. cbn [OIDFieldName FlatPolys_final cleanup CalculateField].
  rewrite Hmap. by repeat split.
Qed.

End Further.

(** ** A run in which nothing raises *)

Section Whole_run.

Context {Geometry Point SpatialReference Layer : Type}.
Variable gp : Geoprocessor Geometry Point SpatialReference.
Variable E : Collaborators Geometry SpatialReference Layer.

Lemma runTool_without_fault (outDir outGDB inSQLDbase inNetworkDataset imp BufferSize
    restrictions TrimSettings : string) (w : World Geometry SpatialReference)
    (db : Sql.database) :
  (forall cs, fault E cs = None) ->
  files w !! inSQLDbase = Some db ->
  inSQLDbase <> SQLDbase_of E outDir outGDB ->
  runTool gp E outDir outGDB inSQLDbase inNetworkDataset imp BufferSize restrictions
    TrimSettings w
  = (Ret tt,
     world_after_run gp E outDir outGDB inNetworkDataset imp BufferSize restrictions
       TrimSettings db w).
Proof.
  intros Hnofault Hdb Hne.
  destruct w as [fs ds gdbs ow ocs ms ps cs]. cbn [files] in Hdb.
  unfold runTool, run_body, setup, make_stops, make_service_areas, post_process,
    post_process_body.
  run_step. rewrite !Hnofault. run_step.
  change (os_path_join E
            (os_path_join E outDir
               (if negb (Py.endswith (Py.lower outGDB) ".gdb")
                then outGDB +:+ ".gdb" else outGDB)) "Step1_GTFS.sql")
    with (SQLDbase_of E outDir outGDB).
  change (os_path_join E outDir
            (if negb (Py.endswith (Py.lower outGDB) ".gdb")
             then outGDB +:+ ".gdb" else outGDB))
    with (outGDBwPath_of E outDir outGDB).
  rewrite bool_decide_eq_false_2 by done. run_step. rewrite Hdb. run_step.
  rewrite lookup_insert_eq. run_step.
  destruct (CleanUpTrimSettings E TrimSettings) as [TrimPolys TrimPolysValue] eqn:Htrim.
  run_step. rewrite lookup_insert_eq. cbn [default from_option id].
  destruct (MakeStopsFeatureClass E (os_path_join E (outGDBwPath_of E outDir outGDB) "Step1_Stops") db)
    as [StopsLayer StopIDList] eqn:Hmake.
  run_step.
  repeat run_stuck.
  set (polygons := MakeServiceAreasAroundStops E StopsLayer inNetworkDataset
                     (CleanUpImpedance E imp) BufferSize restrictions TrimPolys
                     TrimPolysValue) in *.
  assert (Hpolys : polygons_of E outDir outGDB inNetworkDataset imp BufferSize restrictions
                     TrimSettings db = polygons).
  { unfold polygons_of. by rewrite Hmake, Htrim. }
  change (read_StackedPoints (StackedPtCursor gp E polygons) = (l, l0)) in Hread.
  unfold world_after_run. cbn zeta. rewrite Hpolys.
  cbn [files datasets messages parameters calls].
  f_equal. f_equal.
  - rewrite !insert_insert_eq. unfold StackedPoints_table, AddToStackedPts.
    by rewrite Hread.
  - rewrite !insert_insert_eq. unfold FlatPolys_final, cleanup, FIDsToDelete.
    by rewrite Hread.
  - unfold run_infos. by rewrite <- !List.app_assoc.
  - unfold runTool_calls, setup_calls, post_process_calls.
    by rewrite <- !List.app_assoc.
Qed.

Lemma runTool_frames (outDir outGDB inSQLDbase inNetworkDataset imp BufferSize
    restrictions TrimSettings : string) (w : World Geometry SpatialReference) :
  let w' := (runTool gp E outDir outGDB inSQLDbase inNetworkDataset imp BufferSize
               restrictions TrimSettings w).2 in
  files_agree_except (SQLDbase_of E outDir outGDB) w w' /\
  (overwriteOutput w' = true \/
   overwriteOutput w' = overwriteOutput w /\
   exists cs, cs ∈ [cs_CheckArcVersion; cs_CheckArcInfoLicense; cs_CheckOutNALicense;
                    cs_CheckWorkspace] /\ fault E cs <> None) /\
  (outputCoordinateSystem w' = Some (WorldCylindrical E) \/
   outputCoordinateSystem w' = outputCoordinateSystem w).
Proof.
  destruct w as [fs ds gdbs ow ocs ms ps cs].
  unfold runTool, run_body, setup, make_stops, make_service_areas, post_process,
    post_process_body, files_agree_except.
  run_step.
  change (os_path_join E
            (os_path_join E outDir
               (if negb (Py.endswith (Py.lower outGDB) ".gdb")
                then outGDB +:+ ".gdb" else outGDB)) "Step1_GTFS.sql")
    with (SQLDbase_of E outDir outGDB).
  repeat (run_any; cbn [default from_option id]).
  all: split; [intros p Hp; by rewrite ?lookup_insert_ne by congruence|].
  all: split; [|first [left; reflexivity|right; reflexivity]].
  all: first
    [ left; reflexivity
    | right; split; [reflexivity|];
      match goal with
      | H : fault E ?c = Some _ |- _ =>
          exists c; split;
          [ apply list_elem_of_In; cbn [In]; repeat first [left; reflexivity|right]
          | rewrite H; discriminate ]
      end ].
Qed.


(** X6.  Of the SQLite files, a run writes Step1_GTFS.sql of the output
    geodatabase and no other, however it ends. *)
Theorem run_writes_Step1_GTFS_only (outDir outGDB inSQLDbase inNetworkDataset imp
    BufferSize restrictions TrimSettings : string) (w : World Geometry SpatialReference) :
  files_agree_except (SQLDbase_of E outDir outGDB) w
    (runTool gp E outDir outGDB inSQLDbase inNetworkDataset imp BufferSize restrictions
       TrimSettings w).2.
Proof.
  apply (runTool_frames outDir outGDB inSQLDbase inNetworkDataset imp BufferSize
           restrictions TrimSettings w).
Qed.

(** X7.  A run does not put the geoprocessing environment back: however it
    ends, overwriteOutput is True afterwards unless one of the four checks at
    the start raised (it is then as before), the value saved at line 58
    being never used; and the output coordinate system is either
    WorldCylindrical or as before. *)
Theorem run_leaves_the_environment_changed (outDir outGDB inSQLDbase inNetworkDataset imp
    BufferSize restrictions TrimSettings : string) (w : World Geometry SpatialReference) :
  let w' := (runTool gp E outDir outGDB inSQLDbase inNetworkDataset imp BufferSize
               restrictions TrimSettings w).2 in
  (overwriteOutput w' = true \/
   overwriteOutput w' = overwriteOutput w /\
   exists cs, cs ∈ [cs_CheckArcVersion; cs_CheckArcInfoLicense; cs_CheckOutNALicense;
                    cs_CheckWorkspace] /\ fault E cs <> None) /\
  (outputCoordinateSystem w' = Some (WorldCylindrical E) \/
   outputCoordinateSystem w' = outputCoordinateSystem w).
Proof.
  apply (runTool_frames outDir outGDB inSQLDbase inNetworkDataset imp BufferSize
           restrictions TrimSettings w).
Qed.

(** X8.  When the input database is there, is not the file the run writes,
    and no call raises, the run returns; the output parameters 8, 9 and 10
    are the paths of Step1_Stops, Step1_FlatPolys and Step1_GTFS.sql in the
    output geodatabase, the others are as before; the messages added are the
    ten informative ones, none of them an error; and Step1_GTFS.sql is the
    input database with the table StackedPoints. *)
Theorem run_without_fault_outputs (outDir outGDB inSQLDbase inNetworkDataset imp BufferSize
    restrictions TrimSettings : string) (w : World Geometry SpatialReference)
    (db : Sql.database) :
  (forall cs, fault E cs = None) ->
  files w !! inSQLDbase = Some db ->
  inSQLDbase <> SQLDbase_of E outDir outGDB ->
  let r := runTool gp E outDir outGDB inSQLDbase inNetworkDataset imp BufferSize
             restrictions TrimSettings w in
  let outGDBwPath := os_path_join E outDir (with_gdb outGDB) in
  r.1 = Ret tt /\
  parameters r.2 !! 8%nat = Some (os_path_join E outGDBwPath "Step1_Stops") /\
  parameters r.2 !! 9%nat = Some (os_path_join E outGDBwPath "Step1_FlatPolys") /\
  parameters r.2 !! 10%nat = Some (os_path_join E outGDBwPath "Step1_GTFS.sql") /\
  (forall n, n <> 8%nat -> n <> 9%nat -> n <> 10%nat ->
     parameters r.2 !! n = parameters w !! n) /\
  messages r.2 = messages w ++ run_infos outGDBwPath /\
  infos_only (run_infos outGDBwPath) /\
  files r.2 !! os_path_join E outGDBwPath "Step1_GTFS.sql"
  = Some (<["StackedPoints" :=
              StackedPoints_table gp E
                (polygons_of E outDir outGDB inNetworkDataset imp BufferSize restrictions
                   TrimSettings db)]> db).
Proof.
  intros Hnofault Hdb Hne. cbn zeta.
  rewrite (runTool_without_fault outDir outGDB inSQLDbase inNetworkDataset imp BufferSize
             restrictions TrimSettings w db Hnofault Hdb Hne).
  change (os_path_join E outDir (with_gdb outGDB)) with (outGDBwPath_of E outDir outGDB).
  cbn [fst snd world_after_run parameters messages files].
  split; [done|]. split; [by rewrite lookup_insert_ne, lookup_insert_ne, lookup_insert_eq|].
  split; [by rewrite lookup_insert_ne, lookup_insert_eq|].
  split; [by rewrite lookup_insert_eq|].
  split; [intros n H8 H9 H10; by rewrite !lookup_insert_ne|].
  split; [done|]. split; [by repeat constructor|].
  apply lookup_insert_eq.
Qed.

(** X9.  When the input database is not there (the calls before the copy
    not raising), the run ends with the FileNotFoundError of the copy,
    reported as an error of the set-up and raised to the caller.  The calls
    made are the six up to copyfile: sqlite3.connect is not reached, nor is
    any later stage.  The output geodatabase has been created by then, and
    overwriteOutput set: both are left so. *)
Theorem run_without_input_database (outDir outGDB inSQLDbase inNetworkDataset imp
    BufferSize restrictions TrimSettings : string) (w : World Geometry SpatialReference) :
  (forall cs, cs ∈ [cs_CheckArcVersion; cs_CheckArcInfoLicense; cs_CheckOutNALicense;
                    cs_CheckWorkspace; cs_CreateFileGDB; cs_copyfile] ->
              fault E cs = None) ->
  files w !! inSQLDbase = None ->
  let r := runTool gp E outDir outGDB inSQLDbase inNetworkDataset imp BufferSize
             restrictions TrimSettings w in
  r.1 = Raise (Py.Exception "FileNotFoundError") /\
  geodatabases r.2 = {[outGDBwPath_of E outDir outGDB]} ∪ geodatabases w /\
  overwriteOutput r.2 = true /\
  messages r.2 = messages w ++ [(Error, stage_error Setup); (Error, failed)] /\
  calls r.2 = calls w ++ [cs_CheckArcVersion; cs_CheckArcInfoLicense; cs_CheckOutNALicense;
                          cs_CheckWorkspace; cs_CreateFileGDB; cs_copyfile].
Proof.
  intros Hnofault Hnone.
  assert (H1 : fault E cs_CheckArcVersion = None) by (apply Hnofault; in_list).
  assert (H2 : fault E cs_CheckArcInfoLicense = None) by (apply Hnofault; in_list).
  assert (H3 : fault E cs_CheckOutNALicense = None) by (apply Hnofault; in_list).
  assert (H4 : fault E cs_CheckWorkspace = None) by (apply Hnofault; in_list).
  assert (H5 : fault E cs_CreateFileGDB = None) by (apply Hnofault; in_list).
  assert (H6 : fault E cs_copyfile = None) by (apply Hnofault; in_list).
  destruct w as [fs ds gdbs ow ocs ms ps cs]. cbn [files] in Hnone.
  unfold runTool, run_body, setup. run_step.
  rewrite H1, H2, H3, H4, H5, H6. run_step.
  rewrite Hnone. run_step.
  cbn [Py.is_CustomError]. run_step. cbn [fst snd].
  repeat split; by rewrite <- ?List.app_assoc.
Qed.

(** X11.  Nothing is undone when the run fails late.  When DeleteFeatures
    raises (and no call before it), the table StackedPoints is in
    Step1_GTFS.sql already, and Step1_FlatPolys is left as flattened: with
    the polygons that were to be deleted, and without any PolyID.  The
    error is raised to the caller unless it is a CustomError. *)
Theorem nothing_is_undone (outDir outGDB inSQLDbase inNetworkDataset imp BufferSize
    restrictions TrimSettings : string) (w : World Geometry SpatialReference)
    (db : Sql.database) (e : Py.exn) :
  fault E cs_DeleteFeatures = Some e ->
  (forall cs, cs <> cs_DeleteFeatures -> fault E cs = None) ->
  files w !! inSQLDbase = Some db ->
  inSQLDbase <> SQLDbase_of E outDir outGDB ->
  let r := runTool gp E outDir outGDB inSQLDbase inNetworkDataset imp BufferSize
             restrictions TrimSettings w in
  let polygons := polygons_of E outDir outGDB inNetworkDataset imp BufferSize restrictions
                    TrimSettings db in
  r.1 = (if Py.is_CustomError e then Ret tt else Raise e) /\
  files r.2 !! SQLDbase_of E outDir outGDB
  = Some (<["StackedPoints" := StackedPoints_table gp E polygons]> db) /\
  datasets r.2 !! os_path_join E (outGDBwPath_of E outDir outGDB) "Step1_FlatPolys"
  = Some (FlatPolys_flattened gp E polygons) /\
  (forall f, f ∈ rows (FlatPolys_flattened gp E polygons) -> PolyID f = None).
Proof.
  intros Hdelete Hnofault Hdb Hne.
  destruct w as [fs ds gdbs ow ocs ms ps cs]. cbn [files] in Hdb.
  unfold runTool, run_body, setup, make_stops, make_service_areas, post_process,
    post_process_body.
  run_step. rewrite Hdelete. rewrite !Hnofault by discriminate. run_step.
  change (os_path_join E
            (os_path_join E outDir
               (if negb (Py.endswith (Py.lower outGDB) ".gdb")
                then outGDB +:+ ".gdb" else outGDB)) "Step1_GTFS.sql")
    with (SQLDbase_of E outDir outGDB).
  change (os_path_join E outDir
            (if negb (Py.endswith (Py.lower outGDB) ".gdb")
             then outGDB +:+ ".gdb" else outGDB))
    with (outGDBwPath_of E outDir outGDB).
  rewrite bool_decide_eq_false_2 by done. run_step. rewrite Hdb. run_step.
  rewrite lookup_insert_eq. run_step.
  destruct (CleanUpTrimSettings E TrimSettings) as [TrimPolys TrimPolysValue] eqn:Htrim.
  run_step. rewrite lookup_insert_eq. cbn [default from_option id].
  destruct (MakeStopsFeatureClass E (os_path_join E (outGDBwPath_of E outDir outGDB) "Step1_Stops") db)
    as [StopsLayer StopIDList] eqn:Hmake.
  run_step.
  repeat run_stuck.
  set (polygons := MakeServiceAreasAroundStops E StopsLayer inNetworkDataset
                     (CleanUpImpedance E imp) BufferSize restrictions TrimPolys
                     TrimPolysValue) in *.
  assert (Hpolys : polygons_of E outDir outGDB inNetworkDataset imp BufferSize restrictions
                     TrimSettings db = polygons).
  { unfold polygons_of. by rewrite Hmake, Htrim. }
  change (read_StackedPoints (StackedPtCursor gp E polygons) = (l, l0)) in Hread.
  cbn zeta. rewrite Hpolys.
  assert (Hnull : forall f, f ∈ rows (FlatPolys_flattened gp E polygons) -> PolyID f = None).
  { intros f Hf. rewrite FlatPolys_flattened_rows in Hf.
    apply new_rows_Shape_Area in Hf as [_ Hattrs].
    unfold PolyID. by rewrite Hattrs, lookup_empty. }
  destruct (Py.is_CustomError e); run_step; cbn [fst snd].
  all: split; [done|].
  all: split; [rewrite lookup_insert_eq, ?insert_insert_eq;
               unfold StackedPoints_table, AddToStackedPts; by rewrite Hread|].
  all: split; [by rewrite lookup_insert_eq|done].
Qed.

End Whole_run.

(** ** The small instance, run *)

Section Example_facts.

Import Example.

Lemma three_cells_final :
  map (fun f => (OID f, PolyID f))
    (rows (FlatPolys_final (gp_of three_cells) (E_of no_fault overlapping) overlapping))
  = [(1, Some 1); (2, Some 2); (3, Some 3)].
Proof. by vm_compute. Qed.

Lemma overlap_cell_final :
  overlap_cell
    ∈ rows (FlatPolys_final (gp_of three_cells) (E_of no_fault overlapping) overlapping).
Proof. apply list_elem_of_In. vm_compute. auto. Qed.

(** C1 on the instance: the overlap of S1 and S2 is linked to S1 and S2. *)
Lemma links_of_the_overlap : links_for_cell db_overlapping 2 = {["S1"; "S2"]}.
Proof.
  destruct (links_are_the_covering_stops (gp_of three_cells) (E_of no_fault overlapping)
              overlapping db_overlapping overlap_cell)
    as (cell_id & Hid & _ & HAB).
  - apply lookup_insert_eq.
  - apply overlap_cell_final.
  - vm_compute in Hid. injection Hid as <-. apply HAB. intros s.
    change (map stop_id (covering (gp_of three_cells) overlapping overlap_cell))
      with ["S1"; "S2"].
    rewrite !elem_of_cons, elem_of_nil. tauto.
Defined.

(** C3 on the instance. *)
Lemma overlapping_cells_have_area_and_links :
  (forall f,
     f ∈ rows (FlatPolys_final (gp_of three_cells) (E_of no_fault overlapping) overlapping) ->
     PrimFloat.eqb (Shape_Area f) 0 = false /\
     exists cell_id, PolyID f = Some cell_id /\ links_for_cell db_overlapping cell_id <> ∅) /\
  (forall f,
     f ∈ rows (FlatPolys_flattened (gp_of three_cells) (E_of no_fault overlapping)
                 overlapping) ->
     PrimFloat.eqb (Shape_Area f) 0 = true \/ links_for_cell db_overlapping (OID f) = ∅ ->
     forall f',
       f' ∈ rows (FlatPolys_final (gp_of three_cells) (E_of no_fault overlapping)
                    overlapping) ->
       OID f' <> OID f).
Proof.
  apply (final_cells_have_area_and_links (gp_of three_cells) (E_of no_fault overlapping)
           overlapping db_overlapping).
  apply lookup_insert_eq.
Defined.

(** C4 fails on the instance with the sliver: the sliver is deleted for its
    area, and StackedPoints still links it to S1. *)
Lemma sliver_keeps_its_links :
  ~ links_reference_final_cells (gp_of with_sliver) (E_of no_fault overlapping) overlapping.
Proof.
  intros Hall. destruct (Hall 2 "S1") as (f & Hf & Hid).
  - apply list_elem_of_In. vm_compute. auto.
  - apply list_elem_of_In in Hf. vm_compute in Hf.
    destruct Hf as [<-|[<-|[]]]; vm_compute in Hid; discriminate.
Qed.

(** C5 fails on the instance with the enclosed area: polygon 2 is deleted,
    and the polygons left have PolyID 1 and 3. *)
Lemma PolyID_keeps_the_gap :
  ~ PolyID_is_position (gp_of three_cells) (E_of no_fault apart) apart.
Proof. unfold PolyID_is_position. vm_compute. discriminate. Qed.

(** With the enclosed area flattened last, the polygons left are the
    first two and their PolyIDs are their positions. *)
Lemma PolyID_without_gap_when_deleted_last :
  map PolyID (rows (FlatPolys_final (gp_of enclosed_last) (E_of no_fault apart) apart))
  = [Some 1; Some 2] /\
  PolyID_is_position (gp_of enclosed_last) (E_of no_fault apart) apart.
Proof. split; by vm_compute. Qed.

Lemma PolyID_with_the_gap :
  map PolyID (rows (FlatPolys_final (gp_of three_cells) (E_of no_fault apart) apart))
  = [Some 1; Some 3].
Proof. by vm_compute. Qed.

(** C8 on the instance: cleaning up the final Step1_FlatPolys once more
    changes nothing. *)
Lemma cleanup_again_changes_nothing :
  cleanup (FlatPolys_final (gp_of three_cells) (E_of no_fault overlapping) overlapping) ∅
  = FlatPolys_final (gp_of three_cells) (E_of no_fault overlapping) overlapping.
Proof.
  refine (proj2 (proj2 (proj2
    (cleanup_of_clean
       (FlatPolys_final (gp_of three_cells) (E_of no_fault overlapping) overlapping) ∅
       _ _)))
    (FlatPolys_flattened (gp_of three_cells) (E_of no_fault overlapping) overlapping)
    (FIDsToDelete (gp_of three_cells) (E_of no_fault overlapping) overlapping) _ _);
    try reflexivity.
  intros f Hf%list_elem_of_In. vm_compute in Hf.
  destruct Hf as [<-|[<-|[<-|[]]]]; (split; [reflexivity|apply not_elem_of_empty]).
Defined.


(** C7 fails on the instance where CheckArcVersion raises a CustomError:
    the run reports it and returns. *)
Lemma CustomError_is_not_reraised :
  ~ every_error_is_reraised (gp_of three_cells) (E_of old_version overlapping).
Proof.
  intros Hall.
  specialize (Hall "C:/out" "bbb" "C:/in/GTFS.sql" "streets_ND" "Length" "400" "" "" w0
                (run_body (gp_of three_cells) (E_of old_version overlapping) "C:/out" "bbb"
                   "C:/in/GTFS.sql" "streets_ND" "Length" "400" "" "" w0).2
                (Py.CustomError "ArcGIS Pro 1.2 or higher is required")).
  assert (Hrun : (runTool (gp_of three_cells) (E_of old_version overlapping) "C:/out" "bbb"
                    "C:/in/GTFS.sql" "streets_ND" "Length" "400" "" "" w0).1 = Ret tt)
    by (by vm_compute).
  rewrite Hrun in Hall. discriminate Hall. by vm_compute.
Qed.

Lemma CustomError_run :
  let r := runTool (gp_of three_cells) (E_of old_version overlapping) "C:/out" "bbb"
             "C:/in/GTFS.sql" "streets_ND" "Length" "400" "" "" w0 in
  r.1 = Ret tt /\
  messages r.2 = [(Error, "Error setting up run.");
                  (Error, "Failed to create BetterBusBuffers polygons.")].
Proof. by vm_compute. Qed.


Lemma earlier_rows_are_gone :
  Sql.tbl_rows
    (StackedPoints_table (gp_of three_cells) (E_of no_fault overlapping) overlapping)
  = [[Sql.Integer 1; Sql.Text "S1"]; [Sql.Integer 2; Sql.Text "S1"];
     [Sql.Integer 2; Sql.Text "S2"]; [Sql.Integer 3; Sql.Text "S2"]].
Proof. by vm_compute. Qed.

(** X8 on the instance. *)
Lemma overlapping_run_outputs :
  (runTool (gp_of three_cells) (E_of no_fault overlapping) "C:/out" "bbb" "C:/in/GTFS.sql"
     "streets_ND" "Length" "400" "" "" w0).1 = Ret tt /\
  parameters
    (runTool (gp_of three_cells) (E_of no_fault overlapping) "C:/out" "bbb" "C:/in/GTFS.sql"
       "streets_ND" "Length" "400" "" "" w0).2 !! 9%nat
  = Some "C:/out/bbb.gdb/Step1_FlatPolys".
Proof.
  destruct (run_without_fault_outputs (gp_of three_cells) (E_of no_fault overlapping)
              "C:/out" "bbb" "C:/in/GTFS.sql" "streets_ND" "Length" "400" "" "" w0 GTFS)
    as (Hret & _ & H9 & _).
  - reflexivity.
  - reflexivity.
  - vm_compute. discriminate.
  - split; [exact Hret|exact H9].
Defined.

(** X9 on the instance: the geodatabase is there, the copy is not. *)
Lemma run_in_an_empty_folder :
  (runTool (gp_of three_cells) (E_of no_fault overlapping) "C:/out" "bbb" "C:/in/GTFS.sql"
     "streets_ND" "Length" "400" "" "" w_no_input).1
  = Raise (Py.Exception "FileNotFoundError") /\
  geodatabases
    (runTool (gp_of three_cells) (E_of no_fault overlapping) "C:/out" "bbb" "C:/in/GTFS.sql"
       "streets_ND" "Length" "400" "" "" w_no_input).2
  = {["C:/out/bbb.gdb"]} ∪ ∅.
Proof.
  destruct (run_without_input_database (gp_of three_cells) (E_of no_fault overlapping)
              "C:/out" "bbb" "C:/in/GTFS.sql" "streets_ND" "Length" "400" "" ""
              w_no_input)
    as (Hraise & Hgdb & _).
  - reflexivity.
  - reflexivity.
  - split; [exact Hraise|exact Hgdb].
Defined.

(** X11 on the instance: the enclosed area, polygon 2, is still there. *)
Lemma locked_run_leaves_all_polygons :
  (runTool (gp_of three_cells) (E_of locked apart) "C:/out" "bbb" "C:/in/GTFS.sql"
     "streets_ND" "Length" "400" "" "" w0).1 = Raise (Py.Exception "ExecuteError") /\
  datasets
    (runTool (gp_of three_cells) (E_of locked apart) "C:/out" "bbb" "C:/in/GTFS.sql"
       "streets_ND" "Length" "400" "" "" w0).2 !! "C:/out/bbb.gdb/Step1_FlatPolys"
  = Some (FlatPolys_flattened (gp_of three_cells) (E_of locked apart) apart).
Proof.
  destruct (nothing_is_undone (gp_of three_cells) (E_of locked apart) "C:/out" "bbb"
              "C:/in/GTFS.sql" "streets_ND" "Length" "400" "" "" w0 GTFS
              (Py.Exception "ExecuteError"))
    as (Hraise & _ & Hds & _).
  - reflexivity.
  - intros [] Hcs; try reflexivity. by destruct Hcs.
  - reflexivity.
  - vm_compute. discriminate.
  - split; [exact Hraise|exact Hds].
Defined.

Lemma locked_run_polygons :
  map OID (rows (FlatPolys_flattened (gp_of three_cells) (E_of locked apart) apart))
  = [1; 2; 3].
Proof. by vm_compute. Qed.

End Example_facts.
